(** * ceph_perf: the cluster topology record, its JSON store and the
      provisioning steps of [cephperftests/ceph_perf.py]

    The development follows the Python module function by function.

    - Values.  A cluster record is whatever [simplejson] can write and read
      back: [None], booleans, integers, strings, lists and ordered
      dictionaries with string keys.  Strings are sequences of characters
      with code points below 256.  Floating-point numbers never occur in a
      record of this program and are left out of the value type.
    - Serialisation.  [dumps] is [json.dump(obj, f, indent = 4 * ' ')] and
      [loads] is [json.load(f, object_pairs_hook = OrderedDict)].
    - Effects.  Every function runs in a state-and-exception monad over a
      [world]: the local file system and the trace of everything the
      process prints, logs or asks of its collaborators.  The collaborators
      (the Linode API, the reachability probe, the Ansible runner) are
      parameters.
    - File system.  A finite map from path strings to file contents and a
      set of directories.  Failures of the operating system itself
      (permissions, a missing parent directory, a full disk) are outside
      the model. *)

From Stdlib Require Import ZArith Ascii String List Lia Bool.
From Stdlib Require Import Decimal DecimalFacts DecimalString DecimalZ DecimalNat DecimalPos.
From stdpp Require Import base option list gmap strings.

Local Open Scope char_scope.
Local Open Scope Z_scope.
Local Open Scope nat_scope.
Local Open Scope stdpp_scope.

(** ** Values *)

Unset Elimination Schemes.
Inductive json : Type :=
| JNull
| JBool (b : bool)
| JInt (z : Z)
| JStr (s : string)
| JArr (items : list json)
| JObj (members : list (string * json)).
Set Elimination Schemes.

(** Induction with the hypotheses for the nested lists. *)
Definition json_ind (P : json -> Prop)
    (Hnull : P JNull)
    (Hbool : forall b, P (JBool b))
    (Hint : forall z, P (JInt z))
    (Hstr : forall s, P (JStr s))
    (Harr : forall items, Forall P items -> P (JArr items))
    (Hobj : forall members, Forall (fun kv => P (snd kv)) members -> P (JObj members)) :
  forall v, P v :=
  fix go (v : json) : P v :=
    match v with
    | JNull => Hnull
    | JBool b => Hbool b
    | JInt z => Hint z
    | JStr s => Hstr s
    | JArr items =>
        Harr items
          ((fix go_items (l : list json) : Forall P l :=
              match l with
              | [] => @List.Forall_nil _ _
              | x :: l' => @List.Forall_cons _ _ x l' (go x) (go_items l')
              end) items)
    | JObj members =>
        Hobj members
          ((fix go_members (l : list (string * json)) : Forall (fun kv => P (snd kv)) l :=
              match l with
              | [] => @List.Forall_nil _ _
              | kv :: l' => @List.Forall_cons _ _ kv l' (go (snd kv)) (go_members l')
              end) members)
    end.

(** *** Ordered dictionaries

    [collections.OrderedDict]: an association list whose keys are pairwise
    distinct and kept in insertion order. *)

Fixpoint odict_get (d : list (string * json)) (k : string) : option json :=
  match d with
  | [] => None
  | (k', v) :: d' => if String.eqb k' k then Some v else odict_get d' k
  end.

(** [d[k] = v]: an existing key keeps its position, a new key goes last. *)
Fixpoint odict_set (d : list (string * json)) (k : string) (v : json)
  : list (string * json) :=
  match d with
  | [] => [(k, v)]
  | (k', v') :: d' =>
      if String.eqb k' k then (k', v) :: d' else (k', v') :: odict_set d' k v
  end.

(** [OrderedDict(pairs)], the [object_pairs_hook] of [load_cluster]. *)
Definition odict_of_pairs (pairs : list (string * json)) : list (string * json) :=
  fold_left (fun d kv => odict_set d (fst kv) (snd kv)) pairs [].

(** The values an [OrderedDict]/[list] tree can hold: in every dictionary
    the keys are pairwise distinct. *)
Fixpoint wf_json (v : json) : Prop :=
  match v with
  | JArr items =>
      (fix wf_items (l : list json) : Prop :=
         match l with
         | [] => True
         | x :: l' => wf_json x /\ wf_items l'
         end) items
  | JObj members =>
      NoDup (map fst members) /\
      (fix wf_members (l : list (string * json)) : Prop :=
         match l with
         | [] => True
         | kv :: l' => wf_json (snd kv) /\ wf_members l'
         end) members
  | _ => True
  end.


(** ** Serialisation: [simplejson] with [indent = 4 * ' '] *)

Section Characters.

Definition ch_quote : ascii := "034".
Definition ch_backslash : ascii := "\".
Definition ch_newline : ascii := "010".
Definition ch_return : ascii := "013".
Definition ch_tab : ascii := "009".
Definition ch_backspace : ascii := "008".
Definition ch_formfeed : ascii := "012".

Definition hex_digit (n : nat) : ascii :=
  match n with
  | 0 => "0" | 1 => "1" | 2 => "2" | 3 => "3" | 4 => "4" | 5 => "5" | 6 => "6"
  | 7 => "7" | 8 => "8" | 9 => "9" | 10 => "a" | 11 => "b" | 12 => "c"
  | 13 => "d" | 14 => "e" | _ => "f"
  end.

(** [int(h, 16)] of one character. *)
Definition hex_value (c : ascii) : option nat :=
  let n := nat_of_ascii c in
  if (48 <=? n) && (n <=? 57) then Some (n - 48)
  else if (97 <=? n) && (n <=? 102) then Some (n - 87)
  else if (65 <=? n) && (n <=? 70) then Some (n - 55)
  else None.

(** [ESCAPE_DCT] and the [\uXXXX] fallback of [encode_basestring_ascii]:
    everything outside [' '..'~'] is escaped. *)
Definition escape_char (c : ascii) : string :=
  if Ascii.eqb c ch_backslash then String ch_backslash (String ch_backslash "")
  else if Ascii.eqb c ch_quote then String ch_backslash (String ch_quote "")
  else if Ascii.eqb c ch_backspace then String ch_backslash "b"
  else if Ascii.eqb c ch_formfeed then String ch_backslash "f"
  else if Ascii.eqb c ch_newline then String ch_backslash "n"
  else if Ascii.eqb c ch_return then String ch_backslash "r"
  else if Ascii.eqb c ch_tab then String ch_backslash "t"
  else
    let n := nat_of_ascii c in
    if (32 <=? n) && (n <=? 126) then String c ""
    else String ch_backslash
           (String "u" (String "0" (String "0"
              (String (hex_digit (n / 16)) (String (hex_digit (n mod 16)) ""))))).

(** The character a one-letter escape stands for ([BACKSLASH] table). *)
Definition unescape_char (e : ascii) : option ascii :=
  if Ascii.eqb e ch_quote then Some ch_quote
  else if Ascii.eqb e ch_backslash then Some ch_backslash
  else if Ascii.eqb e "/" then Some "/"%char
  else if Ascii.eqb e "b" then Some ch_backspace
  else if Ascii.eqb e "f" then Some ch_formfeed
  else if Ascii.eqb e "n" then Some ch_newline
  else if Ascii.eqb e "r" then Some ch_return
  else if Ascii.eqb e "t" then Some ch_tab
  else None.

Definition is_ws (c : ascii) : bool :=
  Ascii.eqb c " " || Ascii.eqb c ch_tab || Ascii.eqb c ch_newline || Ascii.eqb c ch_return.

Definition digit_of_char (c : ascii) : option (uint -> uint) :=
  match nat_of_ascii c - 48, 48 <=? nat_of_ascii c with
  | 0, true => Some D0 | 1, _ => Some D1 | 2, _ => Some D2 | 3, _ => Some D3
  | 4, _ => Some D4 | 5, _ => Some D5 | 6, _ => Some D6 | 7, _ => Some D7
  | 8, _ => Some D8 | 9, _ => Some D9 | _, _ => None
  end.

End Characters.

Section Encoder.

Fixpoint escape (s : string) : string :=
  match s with
  | EmptyString => ""
  | String c r => escape_char c +:+ escape r
  end.

Definition encode_string (s : string) : string :=
  String ch_quote (escape s +:+ String ch_quote "").

(** [str(n)] / ["%d" % n] of an integer. *)
Definition str_of_Z (z : Z) : string := NilZero.string_of_int (Z.to_int z).
Definition str_of_nat (n : nat) : string := str_of_Z (Z.of_nat n).

Fixpoint indent (lvl : nat) : string :=
  match lvl with
  | 0 => ""
  | S l => "    " +:+ indent l
  end.

Definition newline_indent (lvl : nat) : string := String ch_newline (indent lvl).

(** [_iterencode]: an empty container is written closed; otherwise every
    item starts on a line of its own, one level deeper, items separated by
    [","] and keys from values by [": "]. *)
Fixpoint dumps_at (lvl : nat) (v : json) : string :=
  match v with
  | JNull => "null"
  | JBool true => "true"
  | JBool false => "false"
  | JInt z => str_of_Z z
  | JStr s => encode_string s
  | JArr [] => "[]"
  | JArr (x :: xs) =>
      "[" +:+ newline_indent (S lvl) +:+ dumps_at (S lvl) x +:+
      (fix more (l : list json) : string :=
         match l with
         | [] => newline_indent lvl +:+ "]"
         | y :: l' => "," +:+ newline_indent (S lvl) +:+ dumps_at (S lvl) y +:+ more l'
         end) xs
  | JObj [] => "{}"
  | JObj ((k, x) :: xs) =>
      "{" +:+ newline_indent (S lvl) +:+ encode_string k +:+ ": " +:+ dumps_at (S lvl) x +:+
      (fix more (l : list (string * json)) : string :=
         match l with
         | [] => newline_indent lvl +:+ "}"
         | (k', y) :: l' =>
             "," +:+ newline_indent (S lvl) +:+ encode_string k' +:+ ": " +:+
             dumps_at (S lvl) y +:+ more l'
         end) xs
  end.

Definition dumps (v : json) : string := dumps_at 0 v.

(** The items after the first one, up to the closing bracket. *)
Fixpoint dumps_items (lvl : nat) (l : list json) : string :=
  match l with
  | [] => newline_indent lvl +:+ "]"
  | y :: l' => "," +:+ newline_indent (S lvl) +:+ dumps_at (S lvl) y +:+ dumps_items lvl l'
  end.

Fixpoint dumps_members (lvl : nat) (l : list (string * json)) : string :=
  match l with
  | [] => newline_indent lvl +:+ "}"
  | (k, y) :: l' =>
      "," +:+ newline_indent (S lvl) +:+ encode_string k +:+ ": " +:+
      dumps_at (S lvl) y +:+ dumps_members lvl l'
  end.

End Encoder.

Section Decoder.

Fixpoint skip_ws (s : string) : string :=
  match s with
  | EmptyString => ""
  | String c r => if is_ws c then skip_ws r else s
  end.

Fixpoint strip_prefix (p s : string) : option string :=
  match p, s with
  | EmptyString, _ => Some s
  | String a p', String b s' => if Ascii.eqb a b then strip_prefix p' s' else None
  | String _ _, EmptyString => None
  end.

(** [py_scanstring] in strict mode, after the opening quote: the decoded
    text and what follows the closing quote.  An escape of a code point
    from 256 on is outside the value type and reported as undecodable. *)
Fixpoint scanstring (s : string) : option (string * string) :=
  match s with
  | EmptyString => None
  | String c r =>
      if Ascii.eqb c ch_quote then Some ("", r)
      else if Ascii.eqb c ch_backslash then
        match r with
        | EmptyString => None
        | String e r1 =>
            if Ascii.eqb e "u" then
              match r1 with
              | String h1 (String h2 (String h3 (String h4 r2))) =>
                  match hex_value h1, hex_value h2, hex_value h3, hex_value h4 with
                  | Some a, Some b, Some c', Some d =>
                      let n := ((a * 16 + b) * 16 + c') * 16 + d in
                      if n <? 256 then
                        match scanstring r2 with
                        | Some (t, rest) => Some (String (ascii_of_nat n) t, rest)
                        | None => None
                        end
                      else None
                  | _, _, _, _ => None
                  end
              | _ => None
              end
            else
              match unescape_char e with
              | Some c' =>
                  match scanstring r1 with
                  | Some (t, rest) => Some (String c' t, rest)
                  | None => None
                  end
              | None => None
              end
        end
      else if nat_of_ascii c <? 32 then None
      else
        match scanstring r with
        | Some (t, rest) => Some (String c t, rest)
        | None => None
        end
  end.

(** The longest run of decimal digits. *)
Fixpoint read_digits (s : string) : uint * string :=
  match s with
  | EmptyString => (Nil, "")
  | String c r =>
      match digit_of_char c with
      | Some d => let '(ds, rest) := read_digits r in (d ds, rest)
      | None => (Nil, s)
      end
  end.

(** A fraction or an exponent makes the number a float. *)
Definition float_follows (s : string) : bool :=
  match s with
  | EmptyString => false
  | String c _ => Ascii.eqb c "." || Ascii.eqb c "e" || Ascii.eqb c "E"
  end.

(** [NUMBER_RE]: an optional minus sign, then either a single zero or a
    digit from 1 to 9 followed by any digits; floats are outside the value
    type and reported as undecodable. *)
Definition scan_number (s : string) : option (json * string) :=
  let '(neg, s1) :=
    match s with
    | String c r => if Ascii.eqb c "-" then (true, r) else (false, s)
    | EmptyString => (false, s)
    end in
  match s1 with
  | EmptyString => None
  | String c r =>
      if Ascii.eqb c "0" then
        if float_follows r then None else Some (JInt 0, r)
      else
        let '(ds, rest) := read_digits s1 in
        match ds with
        | Nil => None
        | _ =>
            if float_follows rest then None
            else Some (JInt (Z.of_int (if neg : bool then Neg ds else Pos ds)), rest)
        end
  end.

(** [scan_once], [JSONArray] and [JSONObject].  [fuel] bounds the nesting
    of calls; [loads] supplies enough of it for any document. *)
Fixpoint scan_value (fuel : nat) (s : string) : option (json * string) :=
  match fuel with
  | 0 => None
  | S fuel' =>
      match s with
      | EmptyString => None
      | String c r =>
          if Ascii.eqb c ch_quote then
            match scanstring r with
            | Some (t, rest) => Some (JStr t, rest)
            | None => None
            end
          else if Ascii.eqb c "{" then
            match skip_ws r with
            | EmptyString => None
            | String c1 r1 =>
                if Ascii.eqb c1 "}" then Some (JObj [], r1)
                else
                  match scan_members fuel' (skip_ws r) with
                  | Some (pairs, rest) => Some (JObj (odict_of_pairs pairs), rest)
                  | None => None
                  end
            end
          else if Ascii.eqb c "[" then
            match skip_ws r with
            | EmptyString => None
            | String c1 r1 =>
                if Ascii.eqb c1 "]" then Some (JArr [], r1)
                else
                  match scan_items fuel' (skip_ws r) with
                  | Some (items, rest) => Some (JArr items, rest)
                  | None => None
                  end
            end
          else
            match strip_prefix "null" s, strip_prefix "true" s, strip_prefix "false" s with
            | Some rest, _, _ => Some (JNull, rest)
            | _, Some rest, _ => Some (JBool true, rest)
            | _, _, Some rest => Some (JBool false, rest)
            | None, None, None => scan_number s
            end
      end
  end
with scan_items (fuel : nat) (s : string) : option (list json * string) :=
  match fuel with
  | 0 => None
  | S fuel' =>
      match scan_value fuel' s with
      | None => None
      | Some (v, r) =>
          match skip_ws r with
          | EmptyString => None
          | String c r1 =>
              if Ascii.eqb c "," then
                match scan_items fuel' (skip_ws r1) with
                | Some (vs, rest) => Some (v :: vs, rest)
                | None => None
                end
              else if Ascii.eqb c "]" then Some ([v], r1)
              else None
          end
      end
  end
with scan_members (fuel : nat) (s : string) : option (list (string * json) * string) :=
  match fuel with
  | 0 => None
  | S fuel' =>
      match s with
      | EmptyString => None
      | String c r =>
          if Ascii.eqb c ch_quote then
            match scanstring r with
            | None => None
            | Some (k, r1) =>
                match skip_ws r1 with
                | EmptyString => None
                | String c2 r2 =>
                    if Ascii.eqb c2 ":" then
                      match scan_value fuel' (skip_ws r2) with
                      | None => None
                      | Some (v, r3) =>
                          match skip_ws r3 with
                          | EmptyString => None
                          | String c4 r4 =>
                              if Ascii.eqb c4 "," then
                                match scan_members fuel' (skip_ws r4) with
                                | Some (kvs, rest) => Some ((k, v) :: kvs, rest)
                                | None => None
                                end
                              else if Ascii.eqb c4 "}" then Some ([(k, v)], r4)
                              else None
                          end
                      end
                    else None
                end
            end
          else None
      end
  end.

(** Enough fuel to decode what [dumps] writes for a value. *)
Fixpoint jsize (v : json) : nat :=
  match v with
  | JArr items =>
      S ((fix items_size (l : list json) : nat :=
            match l with
            | [] => 0
            | x :: l' => S (jsize x + items_size l')
            end) items)
  | JObj members =>
      S ((fix members_size (l : list (string * json)) : nat :=
            match l with
            | [] => 0
            | kv :: l' => S (jsize (snd kv) + members_size l')
            end) members)
  | _ => 1
  end.

Fixpoint items_size (l : list json) : nat :=
  match l with
  | [] => 0
  | x :: l' => S (jsize x + items_size l')
  end.

Fixpoint members_size (l : list (string * json)) : nat :=
  match l with
  | [] => 0
  | kv :: l' => S (jsize (snd kv) + members_size l')
  end.

(** [json.loads]: leading white space, one value, trailing white space and
    nothing else.  [None] stands for [JSONDecodeError]. *)
Definition loads (s : string) : option json :=
  match scan_value (String.length s) (skip_ws s) with
  | Some (v, rest) =>
      match skip_ws rest with
      | EmptyString => Some v
      | String _ _ => None
      end
  | None => None
  end.

(** What may follow a value in a document: the end, a separator or the
    line break before a closing bracket. *)
Definition value_end (s : string) : Prop :=
  match s with
  | EmptyString => True
  | String c _ => c = ","%char \/ c = ch_newline \/ c = "]"%char \/ c = "}"%char
  end.

(** The first character of an encoded value. *)
Definition value_start (c : ascii) : Prop :=
  In c [ch_quote; "{"; "["; "n"; "t"; "f"; "-"; "0"; "1"; "2"; "3"; "4"; "5"; "6";
        "7"; "8"; "9"]%char.

(** The first character of an encoded integer. *)
Definition number_start (c : ascii) : Prop :=
  In c ["-"; "0"; "1"; "2"; "3"; "4"; "5"; "6"; "7"; "8"; "9"]%char.

End Decoder.

(** ** The world: local files, and what the process says and asks *)

Section World.

(** [linode.id]: an integer or a string. *)
Inductive scalar : Type :=
| SInt (z : Z)
| SStr (s : string).

Definition json_of_scalar (x : scalar) : json :=
  match x with
  | SInt z => JInt z
  | SStr s => JStr s
  end.

(** What [core.create_linode] hands back. *)
Record Linode : Type := {
  lin_id : scalar;
  public_ip : list string;
  private_ip : string
}.

Record disk : Type := {
  disk_label : string;
  disk_size : Z;
  disk_type : string
}.

(** The dictionary given to [core.create_linode].  [others] is empty where
    the source has no ['others'] entry. *)
Record linode_spec : Type := {
  plan_id : Z;
  datacenter : json;
  distribution : string;
  kernel : string;
  label : string;
  group : string;
  boot_size : Z;
  swap_size : Z;
  others : list disk
}.

Record filesys : Type := {
  files : gmap string string;
  dirs : gset string
}.

Inductive event : Type :=
| EPrint (s : string)
| EPrintValue (v : json)
| ELogError (s : string)
| ECreateLinode (spec : linode_spec)
| EWaitForPing (ip : json) (attempts interval : nat)
| EPlaybook (targets : json) (playbook : string) (variables : list (string * json)).

Record world : Type := {
  fs : filesys;
  trace : list event
}.

(** The collaborators: the Linode API, the reachability probe, the Ansible
    runner (whose playbooks may fetch files to the local disk), and the
    operating system's [os.path.abspath]. *)
Record collaborators : Type := {
  create_linode : linode_spec -> world -> option Linode;
  wait_for_ping : json -> nat -> nat -> world -> bool;
  run_playbook : json -> string -> list (string * json) -> world -> filesys;
  abspath : string -> string
}.

Inductive exn : Type :=
| KeyError (k : string)
| TypeError
| AttributeError
| IndexError
| IOError (path : string)
| OSError (path : string)
| JSONDecodeError
| Unmodelled.

Inductive outcome (A : Type) : Type :=
| Ret (a : A)
| Raise (e : exn).
Global Arguments Ret {A} a.
Global Arguments Raise {A} e.

Definition M (A : Type) : Type := world -> outcome A * world.

Definition ret {A : Type} (a : A) : M A := fun w => (Ret a, w).

Definition raise {A : Type} (e : exn) : M A := fun w => (Raise e, w).

Definition bind {A B : Type} (m : M A) (k : A -> M B) : M B :=
  fun w =>
    match m w with
    | (Ret a, w') => k a w'
    | (Raise e, w') => (Raise e, w')
    end.

Definition emit (e : event) : M unit :=
  fun w => (Ret tt, {| fs := fs w; trace := trace w ++ [e] |}).

Definition get_fs : M filesys := fun w => (Ret (fs w), w).

Definition put_fs (f : filesys) : M unit :=
  fun w => (Ret tt, {| fs := f; trace := trace w |}).

End World.

Notation "'let*' x ':=' m 'in' k" := (bind m (fun x => k))
  (at level 10, x name, m at level 100, k at level 200).

Section Python.

Fixpoint mapM {A B : Type} (f : A -> M B) (l : list A) : M (list B) :=
  match l with
  | [] => ret []
  | x :: l' => let* y := f x in let* ys := mapM f l' in ret (y :: ys)
  end.

(** [d[k]] *)
Definition getitem (d : json) (k : string) : M json :=
  match d with
  | JObj members =>
      match odict_get members k with
      | Some v => ret v
      | None => raise (KeyError k)
      end
  | _ => raise TypeError
  end.

(** [d[k] = v]; the updated dictionary stands for the mutated object. *)
Definition setitem (d : json) (k : string) (v : json) : M json :=
  match d with
  | JObj members => ret (JObj (odict_set members k v))
  | _ => raise TypeError
  end.

(** [len(x)] *)
Definition py_len (x : json) : M nat :=
  match x with
  | JArr items => ret (length items)
  | JObj members => ret (length members)
  | JStr s => ret (String.length s)
  | _ => raise TypeError
  end.

(** [x.append(v)]; only lists have it. *)
Definition py_append (x v : json) : M json :=
  match x with
  | JArr items => ret (JArr (items ++ [v]))
  | _ => raise AttributeError
  end.

Fixpoint string_chars (s : string) : list json :=
  match s with
  | EmptyString => []
  | String c r => JStr (String c "") :: string_chars r
  end.

Fixpoint string_removelast (s : string) : string :=
  match s with
  | EmptyString => ""
  | String c r =>
      match r with
      | EmptyString => ""
      | String _ _ => String c (string_removelast r)
      end
  end.

(** [x[:-1]] *)
Definition py_init (x : json) : M json :=
  match x with
  | JArr items => ret (JArr (removelast items))
  | JStr s => ret (JStr (string_removelast s))
  | _ => raise TypeError
  end.

(** What [for y in x] goes through: the items of a list, the keys of a
    dictionary, the characters of a string. *)
Definition py_iter (x : json) : M (list json) :=
  match x with
  | JArr items => ret items
  | JObj members => ret (map (fun kv => JStr (fst kv)) members)
  | JStr s => ret (string_chars s)
  | _ => raise TypeError
  end.

(** [x[i]] of a list *)
Definition py_index (x : json) (i : nat) : M json :=
  match x with
  | JArr items =>
      match items !! i with
      | Some v => ret v
      | None => raise IndexError
      end
  | _ => raise TypeError
  end.

(** A value used where only a string will do: [s + x], [x + s],
    [os.path.join(.., x)], [sep.join([.., x, ..])]. *)
Definition as_str (x : json) : M string :=
  match x with
  | JStr s => ret s
  | _ => raise TypeError
  end.

(** [str(x)] and ["%s" % x] of a scalar; the [repr] of a container is
    outside the model. *)
Definition py_str (x : json) : M string :=
  match x with
  | JStr s => ret s
  | JInt z => ret (str_of_Z z)
  | JNull => ret "None"
  | JBool true => ret "True"
  | JBool false => ret "False"
  | _ => raise Unmodelled
  end.

(** [sep.join(l)] *)
Fixpoint str_join (sep : string) (l : list string) : string :=
  match l with
  | [] => ""
  | [s] => s
  | s :: l' => s +:+ sep +:+ str_join sep l'
  end.

Fixpoint drop_newlines (l : list ascii) : list ascii :=
  match l with
  | [] => []
  | c :: l' => if Ascii.eqb c ch_newline then drop_newlines l' else l
  end.

(** [s.strip('\n')] *)
Definition strip_newlines (s : string) : string :=
  string_of_list_ascii
    (rev (drop_newlines (rev (drop_newlines (list_ascii_of_string s))))).

(** [x is not None] *)
Definition is_not_none (x : json) : bool :=
  match x with
  | JNull => false
  | _ => true
  end.

(** [print(s)], [print(obj)] and [logger.error_msg(s)] *)
Definition print (s : string) : M unit := emit (EPrint s).
Definition print_value (v : json) : M unit := emit (EPrintValue v).
Definition error_msg (s : string) : M unit := emit (ELogError s).

End Python.

Section OS.

Fixpoint ends_with_slash (s : string) : bool :=
  match s with
  | EmptyString => false
  | String c r =>
      match r with
      | EmptyString => Ascii.eqb c "/"
      | String _ _ => ends_with_slash r
      end
  end.

(** [posixpath.join(a, b)] *)
Definition path_join (a b : string) : string :=
  match b with
  | String c _ =>
      if Ascii.eqb c "/" then b
      else
        match a with
        | EmptyString => b
        | String _ _ => if ends_with_slash a then a +:+ b else a +:+ "/" +:+ b
        end
  | EmptyString =>
      match a with
      | EmptyString => ""
      | String _ _ => if ends_with_slash a then a else a +:+ "/"
      end
  end.

(** The directories above a path: its non-empty prefixes that stop in
    front of a ["/"]. *)
Fixpoint path_parents_from (pre s : string) : list string :=
  match s with
  | EmptyString => []
  | String c r =>
      (if Ascii.eqb c "/" then match pre with EmptyString => [] | _ => [pre] end else [])
      ++ path_parents_from (pre +:+ String c "") r
  end.

Definition path_parents (p : string) : list string := path_parents_from "" p.

(** [os.path.isfile(p)] *)
Definition isfile (p : string) : M bool :=
  let* f := get_fs in
  ret (bool_decide (is_Some (files f !! p))).

(** [os.path.exists(p)] *)
Definition path_exists (p : string) : M bool :=
  let* f := get_fs in
  ret (bool_decide (is_Some (files f !! p)) || bool_decide (p ∈ dirs f)).

(** [os.makedirs(p)]: the directory and those above it; an existing leaf
    is an error. *)
Definition makedirs (p : string) : M unit :=
  let* f := get_fs in
  if bool_decide (is_Some (files f !! p)) || bool_decide (p ∈ dirs f)
  then raise (OSError p)
  else put_fs {| files := files f; dirs := dirs f ∪ list_to_set (p :: path_parents p) |}.

(** [open(p, 'w')]: the file is created, or emptied if it was there. *)
Definition open_w (p : string) : M unit :=
  let* f := get_fs in
  put_fs {| files := <[p := ""]> (files f); dirs := dirs f |}.

(** [f.write(s)] on a file opened for writing. *)
Definition fwrite (p s : string) : M unit :=
  let* f := get_fs in
  put_fs {| files := <[p := default "" (files f !! p) +:+ s]> (files f); dirs := dirs f |}.

(** [open(p, 'r').read()] *)
Definition read_file (p : string) : M string :=
  let* f := get_fs in
  match files f !! p with
  | Some s => ret s
  | None => raise (IOError p)
  end.

End OS.

(** ** The module [ceph_perf] *)

Section CephPerf.

Variable env : collaborators.

(** [core.create_linode(spec)] *)
Definition core_create_linode (spec : linode_spec) : M (option Linode) :=
  fun w =>
    (Ret (create_linode env spec w),
     {| fs := fs w; trace := trace w ++ [ECreateLinode spec] |}).

(** [prov.wait_for_ping(temp, attempts, interval)] with
    [temp.public_ip = [ip]] *)
Definition prov_wait_for_ping (ip : json) (attempts interval : nat) : M bool :=
  fun w =>
    (Ret (wait_for_ping env ip attempts interval w),
     {| fs := fs w; trace := trace w ++ [EWaitForPing ip attempts interval] |}).

(** [prov.exec_playbook(targets, playbook, variables = {...})]; no caller
    looks at what it returns. *)
Definition prov_exec_playbook (targets : json) (playbook : string)
    (variables : list (string * json)) : M unit :=
  fun w =>
    (Ret tt,
     {| fs := run_playbook env targets playbook variables w;
        trace := trace w ++ [EPlaybook targets playbook variables] |}).

Definition conf_dir : string := "./cephperfdata".

Definition load_cluster (name : string) : M json :=
  let the_conf_dir := conf_dir in
  let cluster_file := path_join (path_join the_conf_dir name) (name +:+ ".json") in
  let* is_file := isfile cluster_file in
  if negb is_file then ret JNull
  else
    let* text := read_file cluster_file in
    match loads text with
    | Some cluster => ret cluster
    | None => raise JSONDecodeError
    end.

(** [save_cluster] up to and including [open(cluster_file, 'w')]: the
    path of the file that is now open, and empty. *)
Definition save_cluster_open (cluster : json) : M string :=
  let the_conf_dir := conf_dir in
  let* name := getitem cluster "name" in
  let* name := as_str name in
  let cluster_dir := path_join the_conf_dir name in
  let* there := path_exists cluster_dir in
  let* _ := (if there then ret tt else makedirs cluster_dir) in
  let* name := getitem cluster "name" in
  let* name := as_str name in
  let cluster_file := path_join cluster_dir (name +:+ ".json") in
  let* _ := open_w cluster_file in
  ret cluster_file.

Definition save_cluster (cluster : json) : M unit :=
  let* cluster_file := save_cluster_open cluster in
  fwrite cluster_file (dumps cluster).

Definition create_cluster (name : string) (datacenter : json) : M json :=
  let* test_cluster := load_cluster name in
  if is_not_none test_cluster then
    let* _ := print ("Cluster " +:+ name +:+
                     " already exists. Use a different name or load this one instead of creating.") in
    ret JNull
  else
    let cluster := [] in
    let cluster := odict_set cluster "name" (JStr name) in
    let cluster := odict_set cluster "dc" datacenter in
    let cluster := odict_set cluster "admin" (JObj []) in
    let cluster := odict_set cluster "monitors" (JArr []) in
    let cluster := odict_set cluster "servers" (JArr []) in
    let cluster := odict_set cluster "clients" (JArr []) in
    let* _ := save_cluster (JObj cluster) in
    ret (JObj cluster).

(** [str(linode.public_ip[0])] *)
Definition first_public_ip (linode : Linode) : M string :=
  match public_ip linode with
  | ip :: _ => ret ip
  | [] => raise IndexError
  end.

Definition add_admin_mon_node (name : string) : M json :=
  let* cluster := load_cluster name in
  let label := "cephadmin" in
  let* dc := getitem cluster "dc" in
  let admin_linode_spec :=
    {| plan_id := 1; datacenter := dc; distribution := "Ubuntu 14.04 LTS";
       kernel := "Latest 64 bit"; label := label; group := "cephperftests";
       boot_size := 22 * 1024; swap_size := 2048; others := [] |} in
  let* linode := core_create_linode admin_linode_spec in
  match linode with
  | None =>
      let* _ := error_msg "Could not create admin node" in
      ret JNull
  | Some linode =>
      let admin := [] in
      let admin := odict_set admin "id" (json_of_scalar (lin_id linode)) in
      let* ip := first_public_ip linode in
      let admin := odict_set admin "public_ip" (JStr ip) in
      let admin := odict_set admin "private_ip" (JStr (private_ip linode)) in
      let* name' := getitem cluster "name" in
      let* name' := as_str name' in
      let admin := odict_set admin "fqdn" (JStr ("cephadmin." +:+ name')) in
      let admin := odict_set admin "shortname" (JStr "cephadmin") in
      let* cluster := setitem cluster "admin" (JObj admin) in
      let monitor := admin in
      let* name' := getitem cluster "name" in
      let* name' := as_str name' in
      let monitor := odict_set monitor "fqdn" (JStr ("cephmon1." +:+ name')) in
      let monitor := odict_set monitor "shortname" (JStr "cephmon1") in
      let* cluster := setitem cluster "monitors" (JArr [JObj monitor]) in
      let* _ := save_cluster cluster in
      ret JNull
  end.

Definition add_mon_node (name : string) : M json :=
  let* cluster := load_cluster name in
  let label := "cephmon1" in
  let* dc := getitem cluster "dc" in
  let mon_linode_spec :=
    {| plan_id := 1; datacenter := dc; distribution := "Ubuntu 14.04 LTS";
       kernel := "Latest 64 bit"; label := label; group := "cephperftests";
       boot_size := 22 * 1024; swap_size := 2048; others := [] |} in
  let* linode := core_create_linode mon_linode_spec in
  match linode with
  | None =>
      let* _ := error_msg "Could not create mon node" in
      ret JNull
  | Some linode =>
      let mon := [] in
      let mon := odict_set mon "id" (json_of_scalar (lin_id linode)) in
      let* ip := first_public_ip linode in
      let mon := odict_set mon "public_ip" (JStr ip) in
      let mon := odict_set mon "private_ip" (JStr (private_ip linode)) in
      let* name' := getitem cluster "name" in
      let* name' := as_str name' in
      let mon := odict_set mon "fqdn" (JStr ("cephmon1." +:+ name')) in
      let mon := odict_set mon "shortname" (JStr "cephmon1") in
      let* cluster := setitem cluster "monitors" (JArr [JObj mon]) in
      let* _ := save_cluster cluster in
      ret JNull
  end.

(** A node handed to a provisioning function is an entry of the record it
    comes with ([add_client] passes the dictionary it has just appended,
    the driver passes [cluster['servers'][-1]]), so what the function
    writes into the node shows in the record.  The node is therefore
    named by the list it is in and its place there. *)
Record node_ref : Type := {
  ref_list : string;
  ref_index : nat
}.

(** [node[k]] *)
Definition node_getitem (cluster : json) (node : node_ref) (k : string) : M json :=
  let* l := getitem cluster (ref_list node) in
  let* n := py_index l (ref_index node) in
  getitem n k.

(** [node[k] = v] *)
Definition node_setitem (cluster : json) (node : node_ref) (k : string) (v : json)
  : M json :=
  let* l := getitem cluster (ref_list node) in
  let* n := py_index l (ref_index node) in
  let* n' := setitem n k v in
  match l with
  | JArr items => setitem cluster (ref_list node) (JArr (<[ref_index node := n']> items))
  | _ => raise TypeError
  end.

Definition provision_client (cluster : json) (client : node_ref) : M json :=
  let* _ := print_value cluster in
  let* l := getitem cluster (ref_list client) in
  let* c := py_index l (ref_index client) in
  let* _ := print_value c in
  let* ip := node_getitem cluster client "public_ip" in
  let* reached := prov_wait_for_ping ip 60 10 in
  if negb reached then
    let* ip := node_getitem cluster client "public_ip" in
    let* ip := py_str ip in
    let* _ := print ("Unable to reach " +:+ ip +:+ " over SSH") in
    ret JNull
  else
    let* id := node_getitem cluster client "id" in
    let* id := py_str id in
    let pubkey_dir := path_join conf_dir id in
    let* there := path_exists pubkey_dir in
    let* _ := (if there then ret tt else makedirs pubkey_dir) in
    let* _ := print "Provisioning client" in
    let* ip := node_getitem cluster client "public_ip" in
    let* _ := prov_exec_playbook ip "ansible/perf_client.yaml"
                [("pubkey_dir", JStr (abspath env (pubkey_dir +:+ "/")))] in
    let pubkey_file := path_join pubkey_dir "id_rsa.pub" in
    let* is_file := isfile pubkey_file in
    let* cluster :=
      (if is_file then
         let* text := read_file pubkey_file in
         let pubkey := strip_newlines text in
         let* cluster := node_setitem cluster client "pubkey" (JStr pubkey) in
         let* _ := save_cluster cluster in
         ret cluster
       else
         let* _ := print ("Error: public key " +:+ pubkey_file +:+ " not found") in
         ret cluster) in
    let* clients := getitem cluster "clients" in
    let* earlier := py_init clients in
    let* earlier := py_iter earlier in
    let* other_keys := mapM (fun c => getitem c "pubkey") earlier in
    let* servers := getitem cluster "servers" in
    let* servers := py_iter servers in
    let* server_keys := mapM (fun s => getitem s "pubkey") servers in
    let other_keys := other_keys ++ server_keys in
    match other_keys with
    | [] => ret JNull
    | _ :: _ =>
        let* lines := mapM as_str other_keys in
        let add_auth_keys_to_client :=
          String ch_newline (String ch_newline "") +:+
          str_join (String ch_newline "") lines +:+ String ch_newline "" in
        let* _ := print "Adding authorized keys" in
        let* ip := node_getitem cluster client "public_ip" in
        let* _ := prov_exec_playbook ip "ansible/add_authorized_keys.yaml"
                    [("keys", JStr add_auth_keys_to_client)] in
        let* clients := getitem cluster "clients" in
        let* earlier := py_init clients in
        let* earlier := py_iter earlier in
        let* targets := mapM (fun c => getitem c "public_ip") earlier in
        let* servers := getitem cluster "servers" in
        let* servers := py_iter servers in
        let* server_ips := mapM (fun s => getitem s "public_ip") servers in
        let targets := targets ++ server_ips in
        let* pubkey := node_getitem cluster client "pubkey" in
        let* pubkey := as_str pubkey in
        let* _ := prov_exec_playbook (JArr targets) "ansible/add_authorized_keys.yaml"
                    [("keys", JStr (pubkey +:+ String ch_newline ""))] in
        ret JNull
    end.

Definition add_client (name : string) : M json :=
  let* cluster := load_cluster name in
  let* clients := getitem cluster "clients" in
  let* n := py_len clients in
  let client_index := n + 1 in
  let label := "perfclient-" +:+ str_of_nat client_index in
  let* dc := getitem cluster "dc" in
  let client_linode_spec :=
    {| plan_id := 1; datacenter := dc; distribution := "Ubuntu 14.04 LTS";
       kernel := "Latest 64 bit"; label := label; group := "perftests";
       boot_size := 2560; swap_size := 512;
       others := [ {| disk_label := "testhd"; disk_size := 20 * 1024; disk_type := "xfs" |} ]
    |} in
  let* linode := core_create_linode client_linode_spec in
  match linode with
  | None =>
      let* _ := error_msg "Could not create perf client" in
      ret JNull
  | Some linode =>
      let client := [] in
      let client := odict_set client "id" (json_of_scalar (lin_id linode)) in
      let* ip := first_public_ip linode in
      let client := odict_set client "public_ip" (JStr ip) in
      let client := odict_set client "private_ip" (JStr (private_ip linode)) in
      let* clients := getitem cluster "clients" in
      let* place := py_len clients in
      let* clients := py_append clients (JObj client) in
      let* cluster := setitem cluster "clients" clients in
      let* _ := save_cluster cluster in
      let* _ := provision_client cluster {| ref_list := "clients"; ref_index := place |} in
      ret JNull
  end.

Definition add_server (name : string) : M json :=
  let* cluster := load_cluster name in
  let* servers := getitem cluster "servers" in
  let* n := py_len servers in
  let server_index := n + 1 in
  let label := "cephosdrgw-" +:+ str_of_nat server_index in
  let* dc := getitem cluster "dc" in
  let server_linode_spec :=
    {| plan_id := 7; datacenter := dc; distribution := "Ubuntu 14.04 LTS";
       kernel := "Latest 64 bit"; label := label; group := "cephperftests";
       boot_size := 10 * 1024; swap_size := 2 * 1024;
       others := [ {| disk_label := "osd"; disk_size := 360 * 1024; disk_type := "xfs" |};
                   {| disk_label := "osdjournal"; disk_size := 12 * 1024; disk_type := "xfs" |} ]
    |} in
  let* linode := core_create_linode server_linode_spec in
  match linode with
  | None =>
      let* _ := error_msg "Could not create server node" in
      ret JNull
  | Some linode =>
      let server := [] in
      let server := odict_set server "id" (json_of_scalar (lin_id linode)) in
      let* ip := first_public_ip linode in
      let server := odict_set server "public_ip" (JStr ip) in
      let server := odict_set server "private_ip" (JStr (private_ip linode)) in
      let* name' := getitem cluster "name" in
      let* name' := py_str name' in
      let server :=
        odict_set server "fqdn"
          (JStr ("cephosdrgw" +:+ str_of_nat server_index +:+ "." +:+ name')) in
      let server :=
        odict_set server "shortname" (JStr ("cephosdrgw" +:+ str_of_nat server_index)) in
      let* servers := getitem cluster "servers" in
      let* servers := py_append servers (JObj server) in
      let* cluster := setitem cluster "servers" servers in
      let* _ := save_cluster cluster in
      ret JNull
  end.

Definition provision_server (cluster : json) (server : node_ref) : M json :=
  let* server_ip := node_getitem cluster server "public_ip" in
  let* _ := prov_wait_for_ping server_ip 60 10 in
  let* _ := print "Provisioning server" in
  let* shortname := node_getitem cluster server "shortname" in
  let* shortname := as_str shortname in
  let* _ := prov_exec_playbook server_ip "ansible/change_hostname.yaml"
              [("new_hostname", JStr (shortname +:+ "local"))] in
  let* name := getitem cluster "name" in
  let* name := as_str name in
  let pubkey_dir := path_join (path_join conf_dir name) "pubkeys" in
  let* there := path_exists pubkey_dir in
  let* _ := (if there then ret tt else makedirs pubkey_dir) in
  let* fqdn := node_getitem cluster server "fqdn" in
  let* fqdn := as_str fqdn in
  let pubkey_file := abspath env (path_join pubkey_dir (fqdn +:+ ".pub")) in
  let* _ := prov_exec_playbook server_ip "ansible/ceph_server.yaml"
              [("local_pubkey_file", JStr pubkey_file)] in
  let* is_file := isfile pubkey_file in
  let* cluster :=
    (if is_file then
       let* text := read_file pubkey_file in
       let pubkey := strip_newlines text in
       let* cluster := node_setitem cluster server "pubkey" (JStr pubkey) in
       let* _ := save_cluster cluster in
       ret cluster
     else
       let* _ := print ("Error: public key " +:+ pubkey_file +:+ " not found") in
       ret cluster) in
  let* admin := getitem cluster "admin" in
  let* admin_key := getitem admin "pubkey" in
  let* admin_key := as_str admin_key in
  let* name := getitem cluster "name" in
  let* _ := prov_exec_playbook server_ip "ansible/add_authorized_keys.yaml"
              [("keys", JStr (admin_key +:+ String ch_newline "")); ("cluster", name)] in
  ret JNull.

(** One line of the hosts table and the address it is pushed to. *)
Definition host_entry (node : json) : M (json * json) :=
  let* ip := getitem node "private_ip" in
  let* fqdn := getitem node "fqdn" in
  let* shortname := getitem node "shortname" in
  let* target := getitem node "public_ip" in
  ret (JObj [("ip", ip); ("fqdn", fqdn); ("shortname", shortname)], target).

Definition update_storage_fqdn_entries (cluster : json) : M json :=
  let* admin := getitem cluster "admin" in
  let* admin_entry := host_entry admin in
  let* monitors := getitem cluster "monitors" in
  let* monitors := py_iter monitors in
  let* mon_entries := mapM host_entry monitors in
  let* servers := getitem cluster "servers" in
  let* servers := py_iter servers in
  let* server_entries := mapM host_entry servers in
  let entries := admin_entry :: mon_entries ++ server_entries in
  let host_entries := map fst entries in
  let targets := map snd entries in
  let* name := getitem cluster "name" in
  let* _ := prov_exec_playbook (JArr targets) "ansible/modify_hosts_file.yaml"
              [("host_entries", JArr host_entries); ("cluster", name)] in
  ret JNull.

End CephPerf.

(** ** The rest of the module: [provision_admin_mon] and the script *)

Section CephPerfRest.

Variable env : collaborators.

(** [provision_admin_mon(cluster, cluster['admin'])], as both places
    that mention the call have it: [admin] is the admin entry of the
    record, so what is written into it shows in the record, and the entry
    is read and written through the record.  The argument is evaluated
    before the body runs. *)
Definition admin_getitem (cluster : json) (k : string) : M json :=
  let* admin := getitem cluster "admin" in
  getitem admin k.

Definition admin_setitem (cluster : json) (k : string) (v : json) : M json :=
  let* admin := getitem cluster "admin" in
  let* admin := setitem admin k v in
  setitem cluster "admin" admin.

(** [x[0]]: the first item of a list, the first character of a string,
    the value under the key [0] of a dictionary, which a dictionary with
    string keys does not have. *)
Definition py_first (x : json) : M json :=
  match x with
  | JArr (v :: _) => ret v
  | JArr [] => raise IndexError
  | JStr (String c _) => ret (JStr (String c ""))
  | JStr EmptyString => raise IndexError
  | JObj _ => raise (KeyError "0")
  | _ => raise TypeError
  end.

(** [mon] is bound only where the key file was found.  Its use further
    down when it is not bound is Python's [UnboundLocalError], for which
    the exception type has no name of its own: it is raised as
    [Unmodelled]. *)
Definition provision_admin_mon (cluster : json) : M json :=
  let* admin := getitem cluster "admin" in
  let* _ := print_value cluster in
  let* _ := print_value admin in
  let* admin_ip := admin_getitem cluster "public_ip" in
  let* reached := prov_wait_for_ping env admin_ip 60 10 in
  if negb reached then
    let* ip := py_str admin_ip in
    let* _ := print ("Unable to reach " +:+ ip +:+ " over SSH") in
    ret JNull
  else
    let* _ := print "Provisioning admin node" in
    let* cluster := admin_setitem cluster "hostname" (JStr "cephadminmon") in
    let* hostname := admin_getitem cluster "hostname" in
    let* _ := prov_exec_playbook env admin_ip "ansible/change_hostname.yaml"
                [("new_hostname", hostname)] in
    let* _ := update_storage_fqdn_entries env cluster in
    let* name := getitem cluster "name" in
    let* name := as_str name in
    let pubkey_dir := path_join (path_join conf_dir name) "pubkeys" in
    let* there := path_exists pubkey_dir in
    let* _ := (if there then ret tt else makedirs pubkey_dir) in
    let* fqdn := admin_getitem cluster "fqdn" in
    let* fqdn := as_str fqdn in
    let pubkey_file := abspath env (path_join pubkey_dir (fqdn +:+ ".pub")) in
    let* _ := prov_exec_playbook env admin_ip "ansible/ceph_admin_node.yaml"
                [("local_pubkey_file", JStr pubkey_file)] in
    let* is_file := isfile pubkey_file in
    let* state :=
      (if is_file then
         let* text := read_file pubkey_file in
         let pubkey := strip_newlines text in
         let* cluster := admin_setitem cluster "pubkey" (JStr pubkey) in
         let* monitors := getitem cluster "monitors" in
         let* _ := py_first monitors in
         let mon := {| ref_list := "monitors"; ref_index := 0 |} in
         let* cluster := node_setitem cluster mon "pubkey" (JStr pubkey) in
         let* mon_fqdn := node_getitem cluster mon "fqdn" in
         let* mon_fqdn := as_str mon_fqdn in
         let mon_file := path_join pubkey_dir (mon_fqdn +:+ ".pub") in
         let* _ := open_w mon_file in
         let* _ := fwrite mon_file pubkey in
         let* _ := save_cluster cluster in
         ret (cluster, Some mon)
       else
         let* _ := print ("Error: public key " +:+ pubkey_file +:+ " not found") in
         ret (cluster, None)) in
    let cluster := fst state in
    let* admin_key := admin_getitem cluster "pubkey" in
    let* admin_key := as_str admin_key in
    let* name := getitem cluster "name" in
    let* _ := prov_exec_playbook env admin_ip "ansible/add_authorized_keys.yaml"
                [("keys", JStr (admin_key +:+ String ch_newline "")); ("cluster", name)] in
    match snd state with
    | None => raise Unmodelled
    | Some mon =>
        let* monitors := getitem cluster (ref_list mon) in
        let* mon := py_index monitors (ref_index mon) in
        let* name := getitem cluster "name" in
        let* _ := prov_exec_playbook env admin_ip "ansible/create_cluster.yaml"
                    [("mon", mon); ("cluster_name", name)] in
        ret JNull
    end.

(** The module run as a script: the statements that are not commented
    out. *)
Definition main : M json :=
  let name := "cephperfcluster" in
  let* cluster := load_cluster name in
  update_storage_fqdn_entries env cluster.

End CephPerfRest.

(** ** Vocabulary of the statements *)

(** [<root>/<name>/<name>.json] *)
Definition cluster_dir_of (name : string) : string := path_join conf_dir name.

Definition cluster_file_of (name : string) : string :=
  path_join (cluster_dir_of name) (name +:+ ".json").

(** The file system once [save_cluster] has written [cluster] under [name]. *)
Definition saved_fs (cluster : json) (name : string) (f : filesys) : filesys :=
  {| files := <[cluster_file_of name := dumps cluster]> (files f);
     dirs :=
       if bool_decide (is_Some (files f !! cluster_dir_of name))
          || bool_decide (cluster_dir_of name ∈ dirs f)
       then dirs f
       else dirs f ∪ list_to_set (cluster_dir_of name :: path_parents (cluster_dir_of name)) |}.

(** The world after a step that left the files alone and added [es] to
    the trace. *)
Definition said (w : world) (es : list event) : world :=
  {| fs := fs w; trace := trace w ++ es |}.

(** The record [create_cluster] builds. *)
Definition new_cluster (name : string) (datacenter : json) : json :=
  JObj [("name", JStr name); ("dc", datacenter); ("admin", JObj []);
        ("monitors", JArr []); ("servers", JArr []); ("clients", JArr [])].


Definition empty_world : world :=
  {| fs := {| files := ∅; dirs := ∅ |}; trace := [] |}.

Definition t1_world : world := snd (create_cluster "t1" (JInt 6) empty_world).

(** The machine requests of the four roles. *)
Definition admin_spec (dc : json) : linode_spec :=
  {| plan_id := 1; datacenter := dc; distribution := "Ubuntu 14.04 LTS";
     kernel := "Latest 64 bit"; label := "cephadmin"; group := "cephperftests";
     boot_size := 22 * 1024; swap_size := 2048; others := [] |}.

Definition mon_spec (dc : json) : linode_spec :=
  {| plan_id := 1; datacenter := dc; distribution := "Ubuntu 14.04 LTS";
     kernel := "Latest 64 bit"; label := "cephmon1"; group := "cephperftests";
     boot_size := 22 * 1024; swap_size := 2048; others := [] |}.

Definition client_spec (dc : json) (index : nat) : linode_spec :=
  {| plan_id := 1; datacenter := dc; distribution := "Ubuntu 14.04 LTS";
     kernel := "Latest 64 bit"; label := "perfclient-" +:+ str_of_nat index;
     group := "perftests"; boot_size := 2560; swap_size := 512;
     others := [ {| disk_label := "testhd"; disk_size := 20 * 1024; disk_type := "xfs" |} ] |}.

Definition server_spec (dc : json) (index : nat) : linode_spec :=
  {| plan_id := 7; datacenter := dc; distribution := "Ubuntu 14.04 LTS";
     kernel := "Latest 64 bit"; label := "cephosdrgw-" +:+ str_of_nat index;
     group := "cephperftests"; boot_size := 10 * 1024; swap_size := 2 * 1024;
     others := [ {| disk_label := "osd"; disk_size := 360 * 1024; disk_type := "xfs" |};
                 {| disk_label := "osdjournal"; disk_size := 12 * 1024; disk_type := "xfs" |} ] |}.

(** Collaborators that never deliver a machine, never reach a node and
    fetch nothing. *)
Definition no_machine : collaborators :=
  {| create_linode := fun _ _ => None;
     wait_for_ping := fun _ _ _ _ => false;
     run_playbook := fun _ _ _ w => fs w;
     abspath := fun p => p |}.


(** The entries the add-node operations build from a machine. *)
Definition base_node (linode : Linode) (ip : string) : list (string * json) :=
  [("id", json_of_scalar (lin_id linode)); ("public_ip", JStr ip);
   ("private_ip", JStr (private_ip linode))].

Definition named_node (linode : Linode) (ip fqdn shortname : string) : json :=
  JObj (base_node linode ip ++ [("fqdn", JStr fqdn); ("shortname", JStr shortname)]).

Definition admin_node (linode : Linode) (ip cluster_name : string) : json :=
  named_node linode ip ("cephadmin." +:+ cluster_name) "cephadmin".

Definition monitor_node (linode : Linode) (ip cluster_name : string) : json :=
  named_node linode ip ("cephmon1." +:+ cluster_name) "cephmon1".

Definition server_node (linode : Linode) (ip cluster_name : string) (index : nat) : json :=
  named_node linode ip
    ("cephosdrgw" +:+ str_of_nat index +:+ "." +:+ cluster_name)
    ("cephosdrgw" +:+ str_of_nat index).

Definition client_node (linode : Linode) (ip : string) : json :=
  JObj (base_node linode ip).

(** [v[k]] where [v] is a dictionary that has [k]. *)
Definition field (k : string) (v : json) : option json :=
  match v with
  | JObj members => odict_get members k
  | _ => None
  end.

(** A driver that runs an operation [n] times in a row. *)
Fixpoint times (n : nat) (m : M json) : M json :=
  match n with
  | 0 => ret JNull
  | S k => let* _ := times k m in m
  end.


(** The Linode API delivers a machine, with a public address, whenever it
    is asked. *)
Definition always_delivers (env : collaborators) : Prop :=
  forall spec w, exists linode ip ips,
    create_linode env spec w = Some linode /\ public_ip linode = ip :: ips.

(** Collaborators for the examples: machine [n] has id [100 + n] and
    address [1.2.3.n], where [n] counts what the process has said so far;
    every node is reachable; the client playbook fetches a key into the
    directory it is told. *)
Definition mock : collaborators :=
  {| create_linode := fun _ w =>
       let n := length (trace w) in
       Some {| lin_id := SInt (Z.of_nat (100 + n));
               public_ip := ["1.2.3." +:+ str_of_nat n];
               private_ip := "10.0.0." +:+ str_of_nat n |};
     wait_for_ping := fun _ _ _ _ => true;
     run_playbook := fun _ _ variables w =>
       match odict_get variables "pubkey_dir" with
       | Some (JStr d) =>
           {| files := <[d +:+ "id_rsa.pub" := "KEY " +:+ d +:+ String ch_newline ""]>
                         (files (fs w));
              dirs := dirs (fs w) |}
       | _ => fs w
       end;
     abspath := fun p => p |}.

(** A machine as in the scenario: id ["L1"], addresses [1.2.3.4] and
    [10.0.0.1]. *)
Definition machine_L1 : Linode :=
  {| lin_id := SStr "L1"; public_ip := ["1.2.3.4"]; private_ip := "10.0.0.1" |}.

(** Collaborators that always deliver that machine and reach every node,
    but whose playbooks fetch nothing: no key file ever appears. *)
Definition delivers_L1 : collaborators :=
  {| create_linode := fun _ _ => Some machine_L1;
     wait_for_ping := fun _ _ _ _ => true;
     run_playbook := fun _ _ _ w => fs w;
     abspath := fun p => p |}.

(** [node[k]], for a node that has [k]. *)
Definition get (k : string) (node : json) : json := default JNull (field k node).

(** The line of the hosts table for a node, and where the table is sent. *)
Definition hosts_line (node : json) : json :=
  JObj [("ip", get "private_ip" node); ("fqdn", get "fqdn" node);
        ("shortname", get "shortname" node)].

Definition has_host_fields (node : json) : Prop :=
  is_Some (field "private_ip" node) /\ is_Some (field "fqdn" node) /\
  is_Some (field "shortname" node) /\ is_Some (field "public_ip" node).

Definition hosts_table (admin : json) (monitors servers : list json) : list json :=
  hosts_line admin :: map hosts_line monitors ++ map hosts_line servers.

Definition hosts_targets (admin : json) (monitors servers : list json) : list json :=
  get "public_ip" admin :: map (get "public_ip") monitors ++ map (get "public_ip") servers.

Definition hosts_playbook (admin : json) (monitors servers : list json) (name : json)
  : event :=
  EPlaybook (JArr (hosts_targets admin monitors servers)) "ansible/modify_hosts_file.yaml"
    [("host_entries", JArr (hosts_table admin monitors servers)); ("cluster", name)].

(** A cluster with an admin node, a monitor, two servers and a client. *)
Definition sample_node (n : string) : json :=
  JObj [("id", JStr ("L" +:+ n)); ("public_ip", JStr ("1.2.3." +:+ n));
        ("private_ip", JStr ("10.0.0." +:+ n)); ("fqdn", JStr ("node" +:+ n +:+ ".t1"));
        ("shortname", JStr ("node" +:+ n)); ("pubkey", JStr ("KEY " +:+ n))].

Definition sample_members : list (string * json) :=
  [("name", JStr "t1"); ("dc", JInt 6); ("admin", sample_node "0");
   ("monitors", JArr [sample_node "1"]);
   ("servers", JArr [sample_node "2"; sample_node "3"]);
   ("clients", JArr [JObj [("id", JStr "L9"); ("public_ip", JStr "1.2.3.9");
                           ("private_ip", JStr "10.0.0.9")]])].

(** [str(linode.id)] *)
Definition str_of_scalar (x : scalar) : string :=
  match x with
  | SInt z => str_of_Z z
  | SStr s => s
  end.

(** Where the client playbook leaves the key of the client with id [id]. *)
Definition key_dir_of (id : string) : string := path_join conf_dir id.
Definition key_file_of (id : string) : string := path_join (key_dir_of id) "id_rsa.pub".

(** The key recorded for a node, and a node that has one and an address. *)
Definition key_of (node : json) : string :=
  match field "pubkey" node with
  | Some (JStr k) => k
  | _ => ""
  end.

Definition is_member (node : json) : Prop :=
  field "pubkey" node = Some (JStr (key_of node)) /\ is_Some (field "public_ip" node).

(** The file system with directory [d], made if nothing was at its path. *)
Definition with_dir (d : string) (f : filesys) : filesys :=
  {| files := files f;
     dirs :=
       if bool_decide (is_Some (files f !! d)) || bool_decide (d ∈ dirs f)
       then dirs f
       else dirs f ∪ list_to_set (d :: path_parents d) |}.

(** What [provision_client] says up to and including the client playbook. *)
Definition client_preamble (env : collaborators) (cluster client ip : json) (id : string)
  : list event :=
  [EPrintValue cluster; EPrintValue client; EWaitForPing ip 60 10;
   EPrint "Provisioning client";
   EPlaybook ip "ansible/perf_client.yaml"
     [("pubkey_dir", JStr (abspath env (key_dir_of id +:+ "/")))]].

(** The two invocations of the authorized-keys playbook: the keys of the
    members onto the new client, then the key of the new client onto the
    members. *)
Definition authorize_members (ip : json) (keys : list string) : event :=
  EPlaybook ip "ansible/add_authorized_keys.yaml"
    [("keys", JStr (String ch_newline (String ch_newline "") +:+
                    str_join (String ch_newline "") keys +:+ String ch_newline ""))].

Definition push_key (targets : list json) (key : string) : event :=
  EPlaybook (JArr targets) "ansible/add_authorized_keys.yaml"
    [("keys", JStr (key +:+ String ch_newline ""))].


(** The record at the moment the third of three clients is provisioned:
    no servers, two clients with their keys, and the new client. *)
Definition earlier_client (n : string) : json :=
  JObj [("id", JStr ("L" +:+ n)); ("public_ip", JStr ("1.2.3." +:+ n));
        ("private_ip", JStr ("10.0.0." +:+ n)); ("pubkey", JStr ("KEY " +:+ n))].

Definition new_client : list (string * json) :=
  [("id", JStr "L3"); ("public_ip", JStr "1.2.3.3"); ("private_ip", JStr "10.0.0.3")].


(** A cluster with one client that has its key, and a new client. *)
Definition second_client_members : list (string * json) :=
  [("name", JStr "t1"); ("dc", JInt 6); ("admin", JObj []); ("monitors", JArr []);
   ("servers", JArr []);
   ("clients", JArr [earlier_client "1"; JObj new_client])].

(** A cluster whose admin node has its key, with a new server. *)
Definition new_server_members : list (string * json) :=
  [("name", JStr "t1"); ("dc", JInt 6); ("admin", sample_node "0"); ("monitors", JArr []);
   ("servers", JArr [JObj [("id", JStr "L5"); ("public_ip", JStr "1.2.3.5");
                           ("private_ip", JStr "10.0.0.5"); ("fqdn", JStr "cephosdrgw1.t1");
                           ("shortname", JStr "cephosdrgw1")]]);
   ("clients", JArr [])].

(** A cluster whose only client is the new one. *)
Definition first_client_members : list (string * json) :=
  [("name", JStr "t1"); ("dc", JInt 6); ("admin", JObj []); ("monitors", JArr []);
   ("servers", JArr []); ("clients", JArr [JObj new_client])].


(** A machine that comes without a public address. *)
Definition machine_without_address : Linode :=
  {| lin_id := SStr "L7"; public_ip := []; private_ip := "10.0.0.7" |}.

Definition delivers_without_address : collaborators :=
  {| create_linode := fun _ _ => Some machine_without_address;
     wait_for_ping := fun _ _ _ _ => true;
     run_playbook := fun _ _ _ w => fs w;
     abspath := fun p => p |}.


(** Collaborators like [env] except that the probe answers [answer]. *)
Definition with_ping (env : collaborators) (answer : bool) : collaborators :=
  {| create_linode := create_linode env;
     wait_for_ping := fun _ _ _ _ => answer;
     run_playbook := run_playbook env;
     abspath := abspath env |}.

(** Where [provision_server] and [provision_admin_mon] expect the key of
    the node [fqdn] of cluster [name]. *)
Definition pubkeys_file (env : collaborators) (name fqdn : string) : string :=
  abspath env (path_join (path_join (path_join conf_dir name) "pubkeys") (fqdn +:+ ".pub")).


(** The admin key being authorized on a server. *)
Definition authorize_admin (ip : json) (key : string) (name : json) : event :=
  EPlaybook ip "ansible/add_authorized_keys.yaml"
    [("keys", JStr (key +:+ String ch_newline "")); ("cluster", name)].




(** The machine requests of [k] servers added after [m] others. *)
Definition server_requests (dc : json) (m k : nat) : list event :=
  map (fun j => ECreateLinode (server_spec dc (m + j + 1))) (seq 0 k).

(** Servers whose short names follow their positions. *)
Definition named_by_position (servers : list json) : Prop :=
  forall j s, servers !! j = Some s ->
    field "shortname" s = Some (JStr ("cephosdrgw" +:+ str_of_nat (j + 1))).

(** The authorized-keys playbook, given keys as [provision_client] gives
    them, works on the nodes: it leaves the local files alone. *)
Definition authorizing_is_remote (env : collaborators) : Prop :=
  forall targets keys w,
    run_playbook env targets "ansible/add_authorized_keys.yaml" [("keys", keys)] w = fs w.

(** A client entry once its key is recorded. *)
Definition keyed_client (linode : Linode) (ip key : string) : json :=
  JObj (odict_set (base_node linode ip) "pubkey" (JStr key)).

(** What [provision_admin_mon] says up to and including the playbook of
    the admin node. *)
Definition admin_preamble (env : collaborators) (cluster admin : json) (ip : json)
    (monitors servers : list json) (name fqdn : string) : list event :=
  [EPrintValue cluster; EPrintValue admin; EWaitForPing ip 60 10;
   EPrint "Provisioning admin node";
   EPlaybook ip "ansible/change_hostname.yaml" [("new_hostname", JStr "cephadminmon")];
   hosts_playbook admin monitors servers (JStr name);
   EPlaybook ip "ansible/ceph_admin_node.yaml"
     [("local_pubkey_file", JStr (pubkeys_file env name fqdn))]].


(** The cluster [t1] with its admin node and monitor, as
    [add_admin_mon_node] leaves it. *)
Definition admin_only_members : list (string * json) :=
  [("name", JStr "t1"); ("dc", JInt 6);
   ("admin", admin_node machine_L1 "1.2.3.4" "t1");
   ("monitors", JArr [monitor_node machine_L1 "1.2.3.4" "t1"]);
   ("servers", JArr []); ("clients", JArr [])].

Definition admin_L1 : list (string * json) :=
  base_node machine_L1 "1.2.3.4" ++
  [("fqdn", JStr "cephadmin.t1"); ("shortname", JStr "cephadmin")].

Definition monitor_L1 : list (string * json) :=
  base_node machine_L1 "1.2.3.4" ++
  [("fqdn", JStr "cephmon1.t1"); ("shortname", JStr "cephmon1")].

(** * Properties *)

(** ** The decoder inverts the encoder *)

Section RoundTrip.

Lemma append_cons (c : ascii) (a b : string) : String c a +:+ b = String c (a +:+ b).
Proof. reflexivity. Qed.

Lemma append_nil (b : string) : "" +:+ b = b.
Proof. reflexivity. Qed.

Lemma string_app_assoc (a b c : string) : (a +:+ b) +:+ c = a +:+ (b +:+ c).
Proof. induction a as [|x a IH]; [reflexivity|]. rewrite !append_cons, IH. reflexivity. Qed.

Lemma scanstring_plain (c : ascii) (r : string) :
  Ascii.eqb c ch_quote = false -> Ascii.eqb c ch_backslash = false ->
  32 <= nat_of_ascii c ->
  scanstring (String c r) =
  match scanstring r with
  | Some (t, rest) => Some (String c t, rest)
  | None => None
  end.
Proof.
  intros Hq Hb Hn. cbn [scanstring]. rewrite Hq, Hb.
  destruct (Nat.ltb_spec (nat_of_ascii c) 32); [lia | reflexivity].
Qed.

Lemma scanstring_letter (e c : ascii) (r : string) :
  Ascii.eqb e "u" = false -> unescape_char e = Some c ->
  scanstring (String ch_backslash (String e r)) =
  match scanstring r with
  | Some (t, rest) => Some (String c t, rest)
  | None => None
  end.
Proof.
  intros Hu He. cbn [scanstring].
  change (Ascii.eqb ch_backslash ch_quote) with false.
  change (Ascii.eqb ch_backslash ch_backslash) with true.
  cbv iota. rewrite Hu, He. reflexivity.
Qed.

Lemma hex_value_digit (k : nat) : k < 16 -> hex_value (hex_digit k) = Some k.
Proof.
  intros Hk. do 16 (destruct k as [|k]; [reflexivity|]). lia.
Qed.

Lemma nat_of_ascii_lt (c : ascii) : nat_of_ascii c < 256.
Proof. destruct c as [[] [] [] [] [] [] [] []]; vm_compute; lia. Qed.

Lemma scanstring_u00 (c : ascii) (r : string) :
  scanstring (String ch_backslash (String "u" (String "0" (String "0"
     (String (hex_digit (nat_of_ascii c / 16))
        (String (hex_digit (nat_of_ascii c mod 16)) r)))))) =
  match scanstring r with
  | Some (t, rest) => Some (String c t, rest)
  | None => None
  end.
Proof.
  pose proof (nat_of_ascii_lt c) as Hlt.
  cbn [scanstring].
  change (Ascii.eqb ch_backslash ch_quote) with false.
  change (Ascii.eqb ch_backslash ch_backslash) with true.
  change (Ascii.eqb "u" "u") with true.
  change (hex_value "0") with (Some 0).
  cbv iota.
  rewrite !hex_value_digit
    by (try apply Nat.mod_upper_bound; try apply Nat.Div0.div_lt_upper_bound; lia).
  replace (((0 * 16 + 0) * 16 + nat_of_ascii c / 16) * 16 + nat_of_ascii c mod 16)
    with (nat_of_ascii c)
    by (rewrite (Nat.div_mod_eq (nat_of_ascii c) 16) at 1; lia).
  destruct (Nat.ltb_spec (nat_of_ascii c) 256); [|lia].
  rewrite ascii_nat_embedding. reflexivity.
Qed.

Lemma scanstring_escape_char (c : ascii) (t : string) :
  scanstring (escape_char c +:+ t) =
  match scanstring t with
  | Some (u, rest) => Some (String c u, rest)
  | None => None
  end.
Proof.
  unfold escape_char.
  destruct (Ascii.eqb_spec c ch_backslash) as [->|Hb].
  { rewrite !append_cons, append_nil. now apply scanstring_letter. }
  destruct (Ascii.eqb_spec c ch_quote) as [->|Hq].
  { rewrite !append_cons, append_nil. now apply scanstring_letter. }
  destruct (Ascii.eqb_spec c ch_backspace) as [->|?].
  { rewrite !append_cons, append_nil. now apply scanstring_letter. }
  destruct (Ascii.eqb_spec c ch_formfeed) as [->|?].
  { rewrite !append_cons, append_nil. now apply scanstring_letter. }
  destruct (Ascii.eqb_spec c ch_newline) as [->|?].
  { rewrite !append_cons, append_nil. now apply scanstring_letter. }
  destruct (Ascii.eqb_spec c ch_return) as [->|?].
  { rewrite !append_cons, append_nil. now apply scanstring_letter. }
  destruct (Ascii.eqb_spec c ch_tab) as [->|?].
  { rewrite !append_cons, append_nil. now apply scanstring_letter. }
  cbv zeta.
  destruct (Nat.leb_spec 32 (nat_of_ascii c)); cbn [andb].
  - destruct (Nat.leb_spec (nat_of_ascii c) 126).
    + rewrite append_cons, append_nil. apply scanstring_plain; [| |lia].
      * now apply Ascii.eqb_neq.
      * now apply Ascii.eqb_neq.
    + rewrite !append_cons, append_nil. apply scanstring_u00.
  - rewrite !append_cons, append_nil. apply scanstring_u00.
Qed.

Lemma scanstring_escape (s rest : string) :
  scanstring (escape s +:+ String ch_quote rest) = Some (s, rest).
Proof.
  induction s as [|c s IH].
  - reflexivity.
  - cbn [escape]. rewrite string_app_assoc, scanstring_escape_char, IH. reflexivity.
Qed.


Lemma value_end_digits (rest : string) :
  value_end rest -> read_digits rest = (Nil, rest) /\ float_follows rest = false.
Proof.
  destruct rest as [|c r]; [easy|].
  intros [-> | [-> | [-> | ->]]]; split; reflexivity.
Qed.

Lemma read_digits_uint (d : uint) (rest : string) :
  value_end rest ->
  read_digits (NilEmpty.string_of_uint d +:+ rest) = (d, rest).
Proof.
  intros Hend. induction d; cbn [NilEmpty.string_of_uint];
    rewrite ?append_cons, ?append_nil;
    try (cbn [read_digits];
         match goal with |- context [digit_of_char ?c] =>
           let v := eval vm_compute in (digit_of_char c) in
           change (digit_of_char c) with v end;
         cbv iota; rewrite IHd; reflexivity).
  now apply value_end_digits.
Qed.

Lemma pos_to_uint_norm (p : positive) : unorm (Pos.to_uint p) = Pos.to_uint p.
Proof.
  pose proof (DecimalZ.to_of (Z.to_int (Z.pos p))) as H.
  rewrite DecimalZ.of_to in H. cbn [Z.to_int norm] in H. congruence.
Qed.

Lemma pos_to_uint_head (p : positive) :
  match Pos.to_uint p with
  | Nil | D0 _ => False
  | _ => True
  end.
Proof.
  pose proof (pos_to_uint_norm p) as Hn.
  pose proof (DecimalPos.Unsigned.of_to p) as Hof.
  destruct (Pos.to_uint p) as [|u|u|u|u|u|u|u|u|u|u] eqn:E; try exact I.
  - discriminate Hof.
  - rewrite unorm_D0 in Hn. unfold unorm in Hn.
    destruct (nzhead u) eqn:Hz; try discriminate Hn.
    + injection Hn as <-. discriminate Hof.
    + now apply nzhead_nonzero in Hz.
Qed.

Lemma scan_number_str_of_Z (z : Z) (rest : string) :
  value_end rest ->
  scan_number (str_of_Z z +:+ rest) = Some (JInt z, rest).
Proof.
  intros Hend. destruct (value_end_digits rest Hend) as [Hd Hf].
  unfold str_of_Z. destruct z as [|p|p]; cbn [Z.to_int NilZero.string_of_int].
  - change (scan_number (String "0" rest) = Some (JInt 0, rest)).
    unfold scan_number. change (Ascii.eqb "0" "-") with false.
    change (Ascii.eqb "0" "0") with true. cbv iota. rewrite Hf. reflexivity.
  - pose proof (pos_to_uint_head p) as Hh.
    pose proof (read_digits_uint (Pos.to_uint p) rest Hend) as Hr.
    pose proof (DecimalZ.of_to (Z.pos p)) as Hz. cbn [Z.to_int] in Hz.
    unfold NilZero.string_of_uint.
    destruct (Pos.to_uint p) as [|u|u|u|u|u|u|u|u|u|u] eqn:E; try contradiction;
      cbn [NilEmpty.string_of_uint] in *; rewrite append_cons in *;
      unfold scan_number;
      match goal with |- context [Ascii.eqb ?c "-"] =>
        change (Ascii.eqb c "-") with false;
        change (Ascii.eqb c "0") with false end;
      cbv iota; rewrite Hr, Hf, Hz; reflexivity.
  - pose proof (pos_to_uint_head p) as Hh.
    pose proof (read_digits_uint (Pos.to_uint p) rest Hend) as Hr.
    pose proof (DecimalZ.of_to (Z.neg p)) as Hz. cbn [Z.to_int] in Hz.
    rewrite append_cons.
    unfold NilZero.string_of_uint.
    destruct (Pos.to_uint p) as [|u|u|u|u|u|u|u|u|u|u] eqn:E; try contradiction;
      cbn [NilEmpty.string_of_uint] in *; rewrite append_cons in *;
      unfold scan_number;
      change (Ascii.eqb "-" "-") with true; cbv iota;
      match goal with |- context [Ascii.eqb ?c "0"] =>
        change (Ascii.eqb c "0") with false end;
      cbv iota; rewrite Hr, Hf, Hz; reflexivity.
Qed.


Lemma dumps_at_arr (lvl : nat) (x : json) (xs : list json) :
  dumps_at lvl (JArr (x :: xs)) =
  "[" +:+ newline_indent (S lvl) +:+ dumps_at (S lvl) x +:+ dumps_items lvl xs.
Proof.
  cbn [dumps_at]. do 3 f_equal.
  induction xs as [|y l IH]; [reflexivity|].
  cbn [dumps_items]. now rewrite IH.
Qed.

Lemma dumps_at_obj (lvl : nat) (k : string) (x : json) (xs : list (string * json)) :
  dumps_at lvl (JObj ((k, x) :: xs)) =
  "{" +:+ newline_indent (S lvl) +:+ encode_string k +:+ ": " +:+
  dumps_at (S lvl) x +:+ dumps_members lvl xs.
Proof.
  cbn [dumps_at]. do 5 f_equal.
  induction xs as [|[k' y] l IH]; [reflexivity|].
  cbn [dumps_members]. now rewrite IH.
Qed.

Lemma jsize_arr (l : list json) : jsize (JArr l) = S (items_size l).
Proof. reflexivity. Qed.

Lemma jsize_obj (l : list (string * json)) : jsize (JObj l) = S (members_size l).
Proof. reflexivity. Qed.

Lemma wf_json_arr (l : list json) : wf_json (JArr l) <-> Forall wf_json l.
Proof.
  cbn [wf_json]. induction l as [|x l IH].
  - split; [constructor | easy].
  - rewrite Forall_cons. now rewrite IH.
Qed.

Lemma wf_json_obj (l : list (string * json)) :
  wf_json (JObj l) <-> NoDup (map fst l) /\ Forall (fun kv => wf_json (snd kv)) l.
Proof.
  cbn [wf_json]. apply and_iff_compat_l. induction l as [|x l IH].
  - split; [constructor | easy].
  - rewrite Forall_cons. now rewrite IH.
Qed.

Lemma skip_ws_indent (lvl : nat) (s : string) : skip_ws (indent lvl +:+ s) = skip_ws s.
Proof.
  induction lvl as [|l IH]; [reflexivity|].
  cbn [indent]. rewrite string_app_assoc. rewrite !append_cons, append_nil.
  cbn [skip_ws]. change (is_ws " ") with true. cbv iota. exact IH.
Qed.

Lemma skip_ws_newline_indent (lvl : nat) (s : string) :
  skip_ws (newline_indent lvl +:+ s) = skip_ws s.
Proof.
  unfold newline_indent. rewrite append_cons. cbn [skip_ws].
  change (is_ws ch_newline) with true. cbv iota. apply skip_ws_indent.
Qed.



Lemma str_of_Z_head (z : Z) : exists c t, str_of_Z z = String c t /\ number_start c.
Proof.
  unfold str_of_Z, number_start. destruct z as [|p|p]; cbn [Z.to_int NilZero.string_of_int].
  - exists "0"%char, "". split; [reflexivity | cbn; tauto].
  - pose proof (pos_to_uint_head p) as Hh. unfold NilZero.string_of_uint.
    destruct (Pos.to_uint p); try contradiction; cbn [NilEmpty.string_of_uint];
      eexists _, _; (split; [reflexivity | cbn; tauto]).
  - exists "-"%char. eexists. split; [reflexivity | cbn; tauto].
Qed.

Lemma dumps_head (lvl : nat) (v : json) :
  exists c t, dumps_at lvl v = String c t /\ value_start c.
Proof.
  unfold value_start.
  destruct v as [|[]|z|s|[|x xs]|[|[k x] xs]];
    try (eexists _, _; split; [reflexivity | cbn; tauto]).
  destruct (str_of_Z_head z) as (c & t & E & Hc). exists c, t. split; [exact E|].
  unfold number_start in Hc. cbn [In] in *. tauto.
Qed.

Lemma value_start_facts (c : ascii) :
  value_start c ->
  is_ws c = false /\ Ascii.eqb c "]" = false /\ Ascii.eqb c "}" = false.
Proof.
  unfold value_start. cbn [In].
  intros H; repeat (destruct H as [<- | H]; [repeat split; reflexivity|]); contradiction.
Qed.

Lemma skip_ws_dumps (lvl : nat) (v : json) (r : string) :
  skip_ws (dumps_at lvl v +:+ r) = dumps_at lvl v +:+ r.
Proof.
  destruct (dumps_head lvl v) as (c & t & -> & Hc).
  apply value_start_facts in Hc as (Hws & _).
  rewrite append_cons. cbn [skip_ws]. now rewrite Hws.
Qed.

Lemma strip_prefix_app (p r : string) : strip_prefix p (p +:+ r) = Some r.
Proof.
  induction p as [|c p IH]; [now destruct r|].
  rewrite append_cons. cbn [strip_prefix]. now rewrite Ascii.eqb_refl.
Qed.

Lemma odict_set_fresh (d : list (string * json)) (k : string) (v : json) :
  k ∉ map fst d -> odict_set d k v = d ++ [(k, v)].
Proof.
  induction d as [|[k' v'] d IH]; intros Hk; [reflexivity|].
  cbn [odict_set]. cbn [map fst] in Hk.
  apply not_elem_of_cons in Hk as [Hne Hk].
  destruct (String.eqb_spec k' k); [congruence|].
  cbn [app]. now rewrite IH.
Qed.

Lemma odict_of_pairs_NoDup (l : list (string * json)) :
  NoDup (map fst l) -> odict_of_pairs l = l.
Proof.
  unfold odict_of_pairs.
  enough (forall acc, NoDup (map fst (acc ++ l)) ->
            fold_left (fun d kv => odict_set d (fst kv) (snd kv)) l acc = acc ++ l) as H
    by (intros Hl; apply (H [] Hl)).
  induction l as [|[k v] l IH]; intros acc Hnd.
  - cbn. now rewrite app_nil_r.
  - cbn [fold_left fst snd]. rewrite odict_set_fresh.
    + rewrite IH; rewrite <- app_assoc; [reflexivity | exact Hnd].
    + rewrite map_app in Hnd. apply NoDup_app in Hnd as (_ & Hd & _).
      intros Hin. apply (Hd k Hin). cbn. left.
Qed.


Lemma scan_value_number (c : ascii) (t : string) (fuel : nat) :
  number_start c ->
  scan_value (S fuel) (String c t) = scan_number (String c t).
Proof.
  unfold number_start. cbn [In].
  intros H; repeat (destruct H as [<- | H]; [reflexivity|]); contradiction.
Qed.

Lemma scan_value_int (z : Z) (fuel : nat) (rest : string) :
  value_end rest ->
  scan_value (S fuel) (str_of_Z z +:+ rest) = Some (JInt z, rest).
Proof.
  intros Hend. rewrite <- (scan_number_str_of_Z z rest Hend).
  destruct (str_of_Z_head z) as (c & t & -> & Hc). rewrite append_cons.
  now apply scan_value_number.
Qed.

Lemma value_end_items (lvl : nat) (l : list json) (rest : string) :
  value_end (dumps_items lvl l +:+ rest).
Proof.
  destruct l; cbn [dumps_items]; unfold newline_indent; rewrite !append_cons;
    cbn [value_end]; tauto.
Qed.

Lemma value_end_members (lvl : nat) (l : list (string * json)) (rest : string) :
  value_end (dumps_members lvl l +:+ rest).
Proof.
  destruct l as [|[k v] l]; cbn [dumps_members]; unfold newline_indent;
    rewrite !append_cons; cbn [value_end]; tauto.
Qed.

Lemma scan_value_arr_cons (fuel lvl : nat) (x : json) (t : string) :
  scan_value (S fuel) ("[" +:+ newline_indent (S lvl) +:+ dumps_at (S lvl) x +:+ t) =
  match scan_items fuel (dumps_at (S lvl) x +:+ t) with
  | Some (items, rest) => Some (JArr items, rest)
  | None => None
  end.
Proof.
  rewrite append_cons, append_nil. cbn [scan_value].
  change (Ascii.eqb "[" ch_quote) with false. change (Ascii.eqb "[" "{") with false.
  change (Ascii.eqb "[" "[") with true. cbv iota.
  rewrite skip_ws_newline_indent, skip_ws_dumps.
  destruct (dumps_head (S lvl) x) as (c & u & E & Hc).
  apply value_start_facts in Hc as (_ & Hc & _).
  rewrite E, !append_cons, Hc. reflexivity.
Qed.

Lemma scan_items_dumps (lvl : nat) (xs : list json) :
  Forall (fun v => forall lvl fuel rest, jsize v <= fuel -> value_end rest ->
            scan_value fuel (dumps_at lvl v +:+ rest) = Some (v, rest)) xs ->
  forall x fuel rest,
    (forall lvl fuel rest, jsize x <= fuel -> value_end rest ->
            scan_value fuel (dumps_at lvl x +:+ rest) = Some (x, rest)) ->
    items_size (x :: xs) <= fuel ->
    scan_items fuel (dumps_at (S lvl) x +:+ dumps_items lvl xs +:+ rest) =
    Some (x :: xs, rest).
Proof.
  induction 1 as [|y l Hy Hl IH]; intros x fuel rest Hx Hfuel.
  - cbn [items_size] in Hfuel. destruct fuel as [|f]; [lia|].
    cbn [scan_items]. rewrite Hx; [|lia|apply value_end_items].
    cbn [dumps_items]. rewrite string_app_assoc, skip_ws_newline_indent.
    reflexivity.
  - cbn [items_size] in Hfuel. destruct fuel as [|f]; [lia|].
    cbn [scan_items]. rewrite Hx; [|lia|apply value_end_items].
    cbn [dumps_items]. rewrite !string_app_assoc. rewrite append_cons, append_nil.
    cbn [skip_ws]. change (is_ws ",") with false. cbv iota.
    change (Ascii.eqb "," ",") with true. cbv iota.
    rewrite skip_ws_newline_indent, skip_ws_dumps.
    rewrite IH; [reflexivity | exact Hy | cbn [items_size]; lia].
Qed.

Lemma skip_ws_encode_string (k t : string) :
  skip_ws (encode_string k +:+ t) = encode_string k +:+ t.
Proof. reflexivity. Qed.

Lemma scan_value_obj_cons (fuel lvl : nat) (k t : string) :
  scan_value (S fuel) ("{" +:+ newline_indent (S lvl) +:+ encode_string k +:+ t) =
  match scan_members fuel (encode_string k +:+ t) with
  | Some (pairs, rest) => Some (JObj (odict_of_pairs pairs), rest)
  | None => None
  end.
Proof.
  rewrite append_cons, append_nil. cbn [scan_value].
  change (Ascii.eqb "{" ch_quote) with false. change (Ascii.eqb "{" "{") with true.
  cbv iota. rewrite skip_ws_newline_indent, skip_ws_encode_string.
  reflexivity.
Qed.

Lemma scan_members_key (fuel : nat) (k t : string) :
  scan_members (S fuel) (encode_string k +:+ ": " +:+ t) =
  match scan_value fuel (skip_ws t) with
  | None => None
  | Some (v, r3) =>
      match skip_ws r3 with
      | EmptyString => None
      | String c4 r4 =>
          if Ascii.eqb c4 "," then
            match scan_members fuel (skip_ws r4) with
            | Some (kvs, rest) => Some ((k, v) :: kvs, rest)
            | None => None
            end
          else if Ascii.eqb c4 "}" then Some ([(k, v)], r4)
          else None
      end
  end.
Proof.
  unfold encode_string. rewrite append_cons, string_app_assoc, append_cons, append_nil.
  cbn [scan_members]. change (Ascii.eqb ch_quote ch_quote) with true. cbv iota.
  rewrite scanstring_escape. rewrite !append_cons, append_nil.
  reflexivity.
Qed.

Lemma scan_members_dumps (lvl : nat) (xs : list (string * json)) :
  Forall (fun kv => forall lvl fuel rest, jsize (snd kv) <= fuel -> value_end rest ->
            scan_value fuel (dumps_at lvl (snd kv) +:+ rest) = Some (snd kv, rest)) xs ->
  forall k x fuel rest,
    (forall lvl fuel rest, jsize x <= fuel -> value_end rest ->
            scan_value fuel (dumps_at lvl x +:+ rest) = Some (x, rest)) ->
    members_size ((k, x) :: xs) <= fuel ->
    scan_members fuel
      (encode_string k +:+ ": " +:+ dumps_at (S lvl) x +:+ dumps_members lvl xs +:+ rest) =
    Some ((k, x) :: xs, rest).
Proof.
  induction 1 as [|[k' y] l Hy Hl IH]; intros k x fuel rest Hx Hfuel.
  - cbn [members_size snd] in Hfuel. destruct fuel as [|f]; [lia|].
    rewrite scan_members_key, skip_ws_dumps.
    rewrite Hx; [|lia|apply value_end_members].
    cbn [dumps_members]. rewrite string_app_assoc, skip_ws_newline_indent.
    reflexivity.
  - cbn [members_size snd] in Hfuel. destruct fuel as [|f]; [lia|].
    rewrite scan_members_key, skip_ws_dumps.
    rewrite Hx; [|lia|apply value_end_members].
    cbn [dumps_members]. rewrite !string_app_assoc. rewrite append_cons, append_nil.
    cbn [skip_ws]. change (is_ws ",") with false. cbv iota.
    change (Ascii.eqb "," ",") with true. cbv iota.
    rewrite skip_ws_newline_indent, skip_ws_encode_string.
    rewrite IH; [reflexivity | exact Hy | cbn [members_size snd]; lia].
Qed.

Theorem scan_value_dumps (v : json) :
  wf_json v ->
  forall lvl fuel rest, jsize v <= fuel -> value_end rest ->
    scan_value fuel (dumps_at lvl v +:+ rest) = Some (v, rest).
Proof.
  induction v as [|b|z|s|items IH|members IH] using json_ind; intros Hwf lvl fuel rest Hfuel Hend.
  - destruct fuel as [|f]; [cbn in Hfuel; lia|]. reflexivity.
  - destruct fuel as [|f]; [cbn in Hfuel; lia|]. destruct b; reflexivity.
  - destruct fuel as [|f]; [cbn in Hfuel; lia|]. now apply scan_value_int.
  - destruct fuel as [|f]; [cbn in Hfuel; lia|].
    cbn [dumps_at]. unfold encode_string.
    rewrite append_cons, string_app_assoc, append_cons, append_nil.
    cbn [scan_value]. change (Ascii.eqb ch_quote ch_quote) with true. cbv iota.
    now rewrite scanstring_escape.
  - rewrite jsize_arr in Hfuel. destruct fuel as [|f]; [lia|].
    apply wf_json_arr in Hwf.
    destruct items as [|x xs]; [reflexivity|].
    rewrite dumps_at_arr, !string_app_assoc.
    rewrite scan_value_arr_cons.
    apply Forall_cons in IH as [IHx IHxs]. apply Forall_cons in Hwf as [Hx Hxs].
    rewrite scan_items_dumps; [reflexivity | | | lia].
    + rewrite Forall_forall in IHxs, Hxs. apply Forall_forall. intros a Ha.
      apply IHxs; [exact Ha | now apply Hxs].
    + now apply IHx.
  - rewrite jsize_obj in Hfuel. destruct fuel as [|f]; [lia|].
    apply wf_json_obj in Hwf as [Hnd Hwf].
    destruct members as [|[k x] xs]; [reflexivity|].
    rewrite dumps_at_obj, !string_app_assoc.
    rewrite scan_value_obj_cons.
    apply Forall_cons in IH as [IHx IHxs]. apply Forall_cons in Hwf as [Hx Hxs].
    rewrite scan_members_dumps; [ | | | lia].
    + now rewrite odict_of_pairs_NoDup.
    + rewrite Forall_forall in IHxs, Hxs. apply Forall_forall. intros a Ha.
      apply IHxs; [exact Ha | now apply Hxs].
    + now apply IHx.
Qed.

Lemma string_length_app (a b : string) :
  String.length (a +:+ b) = String.length a + String.length b.
Proof. induction a as [|c a IH]; [reflexivity|]. rewrite append_cons. cbn [String.length]. now rewrite IH. Qed.

Lemma string_app_nil_r (a : string) : a +:+ "" = a.
Proof. induction a as [|c a IH]; [reflexivity|]. now rewrite append_cons, IH. Qed.

Lemma length_newline_indent (lvl : nat) : 1 <= String.length (newline_indent lvl).
Proof. unfold newline_indent. cbn [String.length]. lia. Qed.

Lemma length_dumps_pos (lvl : nat) (v : json) : 1 <= String.length (dumps_at lvl v).
Proof. destruct (dumps_head lvl v) as (c & t & -> & _). cbn [String.length]. lia. Qed.

Lemma jsize_le_length (v : json) :
  forall lvl, jsize v <= String.length (dumps_at lvl v).
Proof.
  induction v as [|b|z|s|items IH|members IH] using json_ind; intros lvl;
    try (cbn [jsize]; apply length_dumps_pos).
  - rewrite jsize_arr. destruct items as [|x xs]; [cbn; lia|].
    rewrite dumps_at_arr, !string_length_app.
    pose proof (length_newline_indent (S lvl)).
    apply Forall_cons in IH as [IHx IHxs]. specialize (IHx (S lvl)).
    enough (items_size xs + 1 <= String.length (dumps_items lvl xs))
      by (cbn [items_size String.length]; lia).
    clear IHx. induction IHxs as [|y l Hy Hl IHl].
    + cbn [dumps_items items_size]. rewrite string_length_app.
      pose proof (length_newline_indent lvl). cbn [String.length]. lia.
    + cbn [dumps_items items_size]. rewrite !string_length_app.
      specialize (Hy (S lvl)). cbn [String.length]. lia.
  - rewrite jsize_obj. destruct members as [|[k x] xs]; [cbn; lia|].
    rewrite dumps_at_obj, !string_length_app.
    pose proof (length_newline_indent (S lvl)).
    apply Forall_cons in IH as [IHx IHxs]. specialize (IHx (S lvl)). cbn [snd] in IHx.
    enough (members_size xs + 1 <= String.length (dumps_members lvl xs))
      by (cbn [members_size String.length snd]; lia).
    clear IHx. induction IHxs as [|[k' y] l Hy Hl IHl].
    + cbn [dumps_members members_size]. rewrite string_length_app.
      pose proof (length_newline_indent lvl). cbn [String.length]. lia.
    + cbn [dumps_members members_size snd]. rewrite !string_length_app.
      specialize (Hy (S lvl)). cbn [snd] in Hy. cbn [String.length]. lia.
Qed.

Theorem loads_dumps (v : json) : wf_json v -> loads (dumps v) = Some v.
Proof.
  intros Hwf. unfold loads, dumps.
  pose proof (skip_ws_dumps 0 v "") as Hs. rewrite string_app_nil_r in Hs. rewrite Hs.
  rewrite <- (string_app_nil_r (dumps_at 0 v)) at 2.
  rewrite scan_value_dumps; [reflexivity | exact Hwf | apply jsize_le_length | exact I].
Qed.

End RoundTrip.

(** ** The store: [load_cluster], [save_cluster], [create_cluster] *)

Section Store.

Local Arguments dumps : simpl never.
Local Arguments loads : simpl never.
Local Arguments path_join : simpl never.

Lemma world_eta (w : world) : {| fs := fs w; trace := trace w |} = w.
Proof. now destruct w. Qed.

Lemma said_nil (w : world) : said w [] = w.
Proof. unfold said. rewrite app_nil_r. apply world_eta. Qed.

Lemma load_cluster_eq (name : string) (w : world) :
  load_cluster name w =
  match files (fs w) !! cluster_file_of name with
  | None => (Ret JNull, w)
  | Some text =>
      match loads text with
      | Some cluster => (Ret cluster, w)
      | None => (Raise JSONDecodeError, w)
      end
  end.
Proof.
  unfold load_cluster, cluster_file_of, cluster_dir_of, isfile, read_file, bind, get_fs, ret.
  destruct (files (fs w) !! _) as [text|] eqn:E.
  - rewrite bool_decide_eq_true_2 by eauto. cbn. rewrite E.
    destruct (loads text); reflexivity.
  - rewrite bool_decide_eq_false_2 by (intros [? ?]; congruence). reflexivity.
Qed.

Lemma load_cluster_world (name : string) (w : world) : snd (load_cluster name w) = w.
Proof.
  rewrite load_cluster_eq. destruct (files (fs w) !! _) as [text|]; [|reflexivity].
  destruct (loads text); reflexivity.
Qed.

(** [load_cluster] looks at the files only. *)
Lemma load_cluster_said (name : string) (w : world) (es : list event) :
  load_cluster name (said w es) =
  (fst (load_cluster name w), said w es).
Proof.
  rewrite !load_cluster_eq. cbn [said fs].
  destruct (files (fs w) !! _) as [text|]; [|reflexivity].
  destruct (loads text); reflexivity.
Qed.

Lemma save_cluster_open_eq (members : list (string * json)) (name : string) (w : world) :
  odict_get members "name" = Some (JStr name) ->
  save_cluster_open (JObj members) w =
  (Ret (cluster_file_of name),
   {| fs := {| files := <[cluster_file_of name := ""]> (files (fs w));
               dirs := dirs (saved_fs (JObj members) name (fs w)) |};
      trace := trace w |}).
Proof.
  intros Hname.
  unfold save_cluster_open, bind, getitem, as_str, path_exists, makedirs, open_w,
    get_fs, put_fs, ret, raise, saved_fs, cluster_file_of, cluster_dir_of.
  rewrite Hname. cbn.
  destruct (bool_decide _ || bool_decide _) eqn:E; cbn; rewrite ?E; cbn; reflexivity.
Qed.

Lemma save_cluster_eq (members : list (string * json)) (name : string) (w : world) :
  odict_get members "name" = Some (JStr name) ->
  save_cluster (JObj members) w =
  (Ret tt, {| fs := saved_fs (JObj members) name (fs w); trace := trace w |}).
Proof.
  intros Hname. unfold save_cluster, bind.
  rewrite (save_cluster_open_eq _ _ _ Hname).
  unfold fwrite, bind, get_fs, put_fs, ret. cbn.
  rewrite lookup_insert_eq, insert_insert_eq. cbn.
  reflexivity.
Qed.

Lemma load_saved (cluster : json) (name : string) (f : filesys) (t : list event) :
  wf_json cluster ->
  load_cluster name {| fs := saved_fs cluster name f; trace := t |} =
  (Ret cluster, {| fs := saved_fs cluster name f; trace := t |}).
Proof.
  intros Hwf. rewrite load_cluster_eq. cbn [fs saved_fs files].
  rewrite lookup_insert_eq, loads_dumps by exact Hwf. reflexivity.
Qed.

End Store.


Lemma wf_new_cluster (name : string) (datacenter : json) :
  wf_json datacenter -> wf_json (new_cluster name datacenter).
Proof.
  intros Hdc. cbn [wf_json new_cluster map fst snd]. split.
  - apply (bool_decide_unpack _). vm_compute. exact I.
  - repeat split; try exact Hdc. apply NoDup_nil_2.
Qed.


Lemma create_cluster_fresh (name : string) (datacenter : json) (w : world) :
  fst (load_cluster name w) = Ret JNull ->
  create_cluster name datacenter w =
  (Ret (new_cluster name datacenter),
   {| fs := saved_fs (new_cluster name datacenter) name (fs w); trace := trace w |}).
Proof.
  intros Hload. unfold create_cluster, bind.
  pose proof (load_cluster_world name w) as Hw.
  destruct (load_cluster name w) as [o w1]. cbn in Hload, Hw. subst o w1.
  cbn [is_not_none].
  change (JObj (odict_set _ "clients" _)) with (new_cluster name datacenter).
  unfold new_cluster at 1. rewrite (save_cluster_eq _ name); [|reflexivity].
  unfold ret. reflexivity.
Qed.





(** ** A machine that is not delivered *)

Section AddNode.

Variable env : collaborators.

Local Arguments dumps : simpl never.
Local Arguments loads : simpl never.
Local Arguments path_join : simpl never.
Local Arguments str_of_nat : simpl never.

Lemma load_cluster_fst (name : string) (w : world) (o : outcome json) :
  fst (load_cluster name w) = o -> load_cluster name w = (o, w).
Proof.
  intros <-. rewrite <- (load_cluster_world name w) at 3.
  now destruct (load_cluster name w).
Qed.

Lemma add_server_no_machine (name : string) (w : world) members dc servers :
  fst (load_cluster name w) = Ret (JObj members) ->
  odict_get members "dc" = Some dc ->
  odict_get members "servers" = Some (JArr servers) ->
  create_linode env (server_spec dc (length servers + 1)) w = None ->
  add_server env name w =
  (Ret JNull, said w [ECreateLinode (server_spec dc (length servers + 1));
                      ELogError "Could not create server node"]).
Proof.
  intros Hload Hdc Hs Hnone. unfold add_server, bind.
  rewrite (load_cluster_fst _ _ _ Hload). cbn. rewrite Hs. cbn. rewrite Hdc. cbn.
  fold (server_spec dc (length servers + 1)). rewrite Hnone. cbn.
  unfold said. now rewrite <- app_assoc.
Qed.


Lemma add_client_no_machine (name : string) (w : world) members dc clients :
  fst (load_cluster name w) = Ret (JObj members) ->
  odict_get members "dc" = Some dc ->
  odict_get members "clients" = Some (JArr clients) ->
  create_linode env (client_spec dc (length clients + 1)) w = None ->
  add_client env name w =
  (Ret JNull, said w [ECreateLinode (client_spec dc (length clients + 1));
                      ELogError "Could not create perf client"]).
Proof.
  intros Hload Hdc Hs Hnone. unfold add_client, bind.
  rewrite (load_cluster_fst _ _ _ Hload). cbn. rewrite Hs. cbn. rewrite Hdc. cbn.
  fold (client_spec dc (length clients + 1)). rewrite Hnone. cbn.
  unfold said. now rewrite <- app_assoc.
Qed.

Lemma add_admin_mon_node_no_machine (name : string) (w : world) members dc :
  fst (load_cluster name w) = Ret (JObj members) ->
  odict_get members "dc" = Some dc ->
  create_linode env (admin_spec dc) w = None ->
  add_admin_mon_node env name w =
  (Ret JNull, said w [ECreateLinode (admin_spec dc);
                      ELogError "Could not create admin node"]).
Proof.
  intros Hload Hdc Hnone. unfold add_admin_mon_node, bind.
  rewrite (load_cluster_fst _ _ _ Hload). cbn. rewrite Hdc. cbn.
  fold (admin_spec dc). rewrite Hnone. cbn.
  unfold said. now rewrite <- app_assoc.
Qed.

Lemma add_mon_node_no_machine (name : string) (w : world) members dc :
  fst (load_cluster name w) = Ret (JObj members) ->
  odict_get members "dc" = Some dc ->
  create_linode env (mon_spec dc) w = None ->
  add_mon_node env name w =
  (Ret JNull, said w [ECreateLinode (mon_spec dc);
                      ELogError "Could not create mon node"]).
Proof.
  intros Hload Hdc Hnone. unfold add_mon_node, bind.
  rewrite (load_cluster_fst _ _ _ Hload). cbn. rewrite Hdc. cbn.
  fold (mon_spec dc). rewrite Hnone. cbn.
  unfold said. now rewrite <- app_assoc.
Qed.

(** C3. When the Linode API returns no machine, each add-node operation
    logs its error and returns [None]; no file is touched, so the record
    on disk, with its servers and clients, is the one that was there. *)
Theorem C3_no_machine_no_change (name : string) (w : world)
    (members : list (string * json)) (dc : json) (servers clients : list json) :
  fst (load_cluster name w) = Ret (JObj members) ->
  odict_get members "dc" = Some dc ->
  odict_get members "servers" = Some (JArr servers) ->
  odict_get members "clients" = Some (JArr clients) ->
  (create_linode env (server_spec dc (length servers + 1)) w = None ->
   add_server env name w =
   (Ret JNull, said w [ECreateLinode (server_spec dc (length servers + 1));
                       ELogError "Could not create server node"])) /\
  (create_linode env (client_spec dc (length clients + 1)) w = None ->
   add_client env name w =
   (Ret JNull, said w [ECreateLinode (client_spec dc (length clients + 1));
                       ELogError "Could not create perf client"])) /\
  (create_linode env (admin_spec dc) w = None ->
   add_admin_mon_node env name w =
   (Ret JNull, said w [ECreateLinode (admin_spec dc);
                       ELogError "Could not create admin node"])) /\
  (create_linode env (mon_spec dc) w = None ->
   add_mon_node env name w =
   (Ret JNull, said w [ECreateLinode (mon_spec dc);
                       ELogError "Could not create mon node"])) /\
  (forall es, fs (said w es) = fs w /\
              fst (load_cluster name (said w es)) = Ret (JObj members)).
Proof.
  intros Hload Hdc Hs Hc. repeat split.
  - now apply add_server_no_machine with members.
  - now apply add_client_no_machine with members.
  - now apply add_admin_mon_node_no_machine with members.
  - now apply add_mon_node_no_machine with members.
  - now rewrite load_cluster_said.
Qed.

End AddNode.

Lemma C3_no_machine_no_change_witness :
  add_server no_machine "t1" t1_world =
    (Ret JNull, said t1_world [ECreateLinode (server_spec (JInt 6) 1);
                               ELogError "Could not create server node"]) /\
  add_client no_machine "t1" t1_world =
    (Ret JNull, said t1_world [ECreateLinode (client_spec (JInt 6) 1);
                               ELogError "Could not create perf client"]) /\
  add_admin_mon_node no_machine "t1" t1_world =
    (Ret JNull, said t1_world [ECreateLinode (admin_spec (JInt 6));
                               ELogError "Could not create admin node"]) /\
  forall es, fst (load_cluster "t1" (said t1_world es)) = Ret (new_cluster "t1" (JInt 6)).
Proof.
  destruct (C3_no_machine_no_change no_machine "t1" t1_world
              [("name", JStr "t1"); ("dc", JInt 6); ("admin", JObj []);
               ("monitors", JArr []); ("servers", JArr []); ("clients", JArr [])]
              (JInt 6) [] [])
    as (Hs & Hc & Ha & _ & Hl).
  - vm_compute. reflexivity.
  - reflexivity.
  - reflexivity.
  - reflexivity.
  - split; [apply Hs; reflexivity|].
    split; [apply Hc; reflexivity|].
    split; [apply Ha; reflexivity|].
    intros es. apply Hl.
Defined.

(** ** How [save_cluster] overwrites *)

Section InPlace.

Local Arguments dumps : simpl never.
Local Arguments loads : simpl never.
Local Arguments path_join : simpl never.


End InPlace.



(** ** Ordered dictionaries and what the decoder returns *)

Section Dictionaries.

Lemma odict_get_set_eq (d : list (string * json)) (k : string) (v : json) :
  odict_get (odict_set d k v) k = Some v.
Proof.
  induction d as [|[k' v'] d IH]; cbn [odict_set odict_get].
  - now rewrite String.eqb_refl.
  - destruct (String.eqb_spec k' k) as [->|Hne]; cbn [odict_get].
    + now rewrite String.eqb_refl.
    + destruct (String.eqb_spec k' k); [contradiction | exact IH].
Qed.

Lemma odict_get_set_ne (d : list (string * json)) (k k' : string) (v : json) :
  k <> k' -> odict_get (odict_set d k v) k' = odict_get d k'.
Proof.
  intros Hne. induction d as [|[k0 v0] d IH]; cbn [odict_set odict_get].
  - destruct (String.eqb_spec k k'); [contradiction | reflexivity].
  - destruct (String.eqb_spec k0 k) as [->|Hk]; cbn [odict_get].
    + destruct (String.eqb_spec k k'); [contradiction | reflexivity].
    + destruct (String.eqb_spec k0 k'); [reflexivity | exact IH].
Qed.


(** Assigning to a key that is there leaves the keys as they are, in
    their order. *)
Lemma odict_set_keys_present (d : list (string * json)) (k : string) (v : json) :
  k ∈ map fst d -> map fst (odict_set d k v) = map fst d.
Proof.
  induction d as [|[k' v'] d IH]; cbn [odict_set map fst]; intros Hin.
  - now apply elem_of_nil in Hin.
  - destruct (String.eqb_spec k' k) as [->|Hne]; [reflexivity|].
    cbn [map fst]. f_equal. apply IH.
    apply elem_of_cons in Hin as [->|Hin]; [contradiction | exact Hin].
Qed.

Lemma odict_set_keys_absent (d : list (string * json)) (k : string) (v : json) :
  k ∉ map fst d -> map fst (odict_set d k v) = map fst d ++ [k].
Proof. intros Hk. rewrite odict_set_fresh by exact Hk. now rewrite map_app. Qed.

Lemma odict_set_NoDup (d : list (string * json)) (k : string) (v : json) :
  NoDup (map fst d) -> NoDup (map fst (odict_set d k v)).
Proof.
  intros Hnd. destruct (decide (k ∈ map fst d)) as [Hin|Hout].
  - now rewrite odict_set_keys_present.
  - rewrite odict_set_keys_absent by exact Hout.
    apply NoDup_app. split; [exact Hnd|]. split.
    + intros x Hx Hx'. apply list_elem_of_singleton in Hx'. now subst.
    + apply NoDup_singleton.
Qed.

Lemma odict_set_Forall (P : json -> Prop) (d : list (string * json)) (k : string) (v : json) :
  Forall (fun kv => P (snd kv)) d -> P v ->
  Forall (fun kv => P (snd kv)) (odict_set d k v).
Proof.
  intros Hd Hv. induction Hd as [|[k' v'] d Hx Hd IH]; cbn [odict_set].
  - now repeat constructor.
  - destruct (String.eqb_spec k' k); constructor; assumption.
Qed.

Lemma wf_json_set (d : list (string * json)) (k : string) (v : json) :
  wf_json (JObj d) -> wf_json v -> wf_json (JObj (odict_set d k v)).
Proof.
  rewrite !wf_json_obj. intros [Hnd Hd] Hv. split.
  - now apply odict_set_NoDup.
  - now apply odict_set_Forall.
Qed.

Lemma wf_json_get (d : list (string * json)) (k : string) (v : json) :
  wf_json (JObj d) -> odict_get d k = Some v -> wf_json v.
Proof.
  rewrite wf_json_obj. intros [_ Hd]. induction Hd as [|[k' v'] d Hx Hd IH];
    cbn [odict_get]; [discriminate|].
  destruct (String.eqb_spec k' k); intros H; [now injection H as <- | now apply IH].
Qed.

Lemma wf_odict_of_pairs (pairs : list (string * json)) :
  Forall (fun kv => wf_json (snd kv)) pairs -> wf_json (JObj (odict_of_pairs pairs)).
Proof.
  unfold odict_of_pairs. intros Hp.
  enough (forall acc, wf_json (JObj acc) ->
            wf_json (JObj (fold_left (fun d kv => odict_set d (fst kv) (snd kv)) pairs acc))) as H.
  { apply H. apply wf_json_obj. split; constructor. }
  induction Hp as [|[k v] l Hx Hl IH]; intros acc Hacc; [exact Hacc|].
  cbn [fold_left fst snd]. apply IH. now apply wf_json_set.
Qed.

End Dictionaries.

Section DecoderOutput.

Local Arguments odict_of_pairs : simpl never.

Ltac split_match :=
  repeat match goal with
  | H : context [match ?x with _ => _ end] |- _ =>
      destruct x eqn:?; try discriminate H
  | H : Some _ = Some _ |- _ => injection H as ? ?; subst
  end.

(** Whatever the decoder returns is a value of the model: its
    dictionaries went through [OrderedDict(pairs)]. *)
Lemma scan_wf (fuel : nat) :
  (forall s v r, scan_value fuel s = Some (v, r) -> wf_json v) /\
  (forall s l r, scan_items fuel s = Some (l, r) -> Forall wf_json l) /\
  (forall s l r, scan_members fuel s = Some (l, r) -> Forall (fun kv => wf_json (snd kv)) l).
Proof.
  induction fuel as [|fuel (IHv & IHi & IHm)]; [repeat split; discriminate|].
  repeat split.
  - intros s v r H. cbn [scan_value] in H. unfold scan_number in H.
    split_match; try exact I;
      first [ apply wf_odict_of_pairs; eapply IHm; eassumption
            | apply wf_json_arr; eapply IHi; eassumption
            | apply wf_json_obj; split; constructor
            | apply wf_json_arr; constructor ].
  - intros s l r H. cbn [scan_items] in H.
    split_match; constructor; first [eapply IHv; eassumption | eapply IHi; eassumption | constructor].
  - intros s l r H. cbn [scan_members] in H.
    split_match; constructor; first [eapply IHv; eassumption | eapply IHm; eassumption | constructor].
Qed.

Lemma loads_wf (s : string) (v : json) : loads s = Some v -> wf_json v.
Proof.
  unfold loads. intros H.
  destruct (scan_value _ _) as [[v' r]|] eqn:E; [|discriminate].
  destruct (skip_ws r); [|discriminate]. injection H as <-.
  eapply (proj1 (scan_wf _)); eassumption.
Qed.

Lemma load_cluster_wf (name : string) (w : world) (cluster : json) :
  fst (load_cluster name w) = Ret cluster -> wf_json cluster.
Proof.
  rewrite load_cluster_eq.
  destruct (files (fs w) !! _) as [text|]; cbn.
  - destruct (loads text) eqn:E; cbn; [|discriminate].
    intros H. injection H as <-. now apply loads_wf in E.
  - intros H. injection H as <-. exact I.
Qed.

End DecoderOutput.

(** ** Appending servers and clients *)

Section AddServer.

Variable env : collaborators.

Local Arguments dumps : simpl never.
Local Arguments loads : simpl never.
Local Arguments path_join : simpl never.
Local Arguments str_of_nat : simpl never.
Local Arguments String.append : simpl never.

Lemma wf_named_node (linode : Linode) (ip fqdn shortname : string) :
  wf_json (named_node linode ip fqdn shortname).
Proof.
  unfold named_node, base_node. cbn [app]. apply wf_json_obj. split.
  - apply (bool_decide_unpack _). vm_compute. exact I.
  - repeat constructor. now destruct (lin_id linode).
Qed.

Lemma wf_client_node (linode : Linode) (ip : string) : wf_json (client_node linode ip).
Proof.
  unfold client_node, base_node. apply wf_json_obj. split.
  - apply (bool_decide_unpack _). vm_compute. exact I.
  - repeat constructor. now destruct (lin_id linode).
Qed.

Lemma wf_json_append (l : list json) (v : json) :
  wf_json (JArr l) -> wf_json v -> wf_json (JArr (l ++ [v])).
Proof.
  rewrite !wf_json_arr. intros Hl Hv. apply Forall_app. split; [exact Hl | now constructor].
Qed.

Lemma add_server_ok (name : string) (w : world) members dc servers linode ip ips :
  fst (load_cluster name w) = Ret (JObj members) ->
  odict_get members "name" = Some (JStr name) ->
  odict_get members "dc" = Some dc ->
  odict_get members "servers" = Some (JArr servers) ->
  create_linode env (server_spec dc (length servers + 1)) w = Some linode ->
  public_ip linode = ip :: ips ->
  let members' :=
    odict_set members "servers"
      (JArr (servers ++ [server_node linode ip name (length servers + 1)])) in
  add_server env name w =
  (Ret JNull,
   {| fs := saved_fs (JObj members') name (fs w);
      trace := trace w ++ [ECreateLinode (server_spec dc (length servers + 1))] |}).
Proof.
  intros Hload Hname Hdc Hs Hl Hip members'. unfold add_server, bind.
  rewrite (load_cluster_fst _ _ _ Hload). cbn. rewrite Hs. cbn. rewrite Hdc. cbn.
  fold (server_spec dc (length servers + 1)). rewrite Hl. cbn.
  unfold first_public_ip. rewrite Hip. cbn. rewrite Hname. cbn.
  change (JObj (odict_set members "servers" _)) with (JObj members').
  rewrite (save_cluster_eq members' name).
  - reflexivity.
  - unfold members'. rewrite odict_get_set_ne by discriminate. exact Hname.
Qed.



Lemma times_S (n : nat) (m : M json) (w : world) :
  times (S n) m w =
  match times n m w with
  | (Ret _, w') => m w'
  | (Raise e, w') => (Raise e, w')
  end.
Proof. reflexivity. Qed.

Lemma seq_snoc (start len : nat) : seq start (S len) = seq start len ++ [start + len].
Proof. rewrite <- Nat.add_1_r. rewrite seq_app. reflexivity. Qed.


Lemma add_client_ok (name : string) (w : world) members dc clients linode ip ips :
  fst (load_cluster name w) = Ret (JObj members) ->
  odict_get members "name" = Some (JStr name) ->
  odict_get members "dc" = Some dc ->
  odict_get members "clients" = Some (JArr clients) ->
  create_linode env (client_spec dc (length clients + 1)) w = Some linode ->
  public_ip linode = ip :: ips ->
  let members' :=
    odict_set members "clients" (JArr (clients ++ [client_node linode ip])) in
  add_client env name w =
  (let* _ := provision_client env (JObj members')
               {| ref_list := "clients"; ref_index := length clients |} in
   ret JNull)
    {| fs := saved_fs (JObj members') name (fs w);
       trace := trace w ++ [ECreateLinode (client_spec dc (length clients + 1))] |}.
Proof.
  intros Hload Hname Hdc Hs Hl Hip members'. unfold add_client at 1, bind at 1.
  rewrite (load_cluster_fst _ _ _ Hload). cbn. rewrite Hs. cbn. rewrite Hdc. cbn.
  fold (client_spec dc (length clients + 1)). rewrite Hl. cbn.
  unfold first_public_ip. rewrite Hip. cbn.
  change (JObj (odict_set members "clients" _)) with (JObj members').
  unfold bind at 1. rewrite (save_cluster_eq members' name).
  - reflexivity.
  - unfold members'. rewrite odict_get_set_ne by discriminate. exact Hname.
Qed.


End AddServer.

Lemma mock_always_delivers : always_delivers mock.
Proof. intros spec w. eexists _, _, _. split; reflexivity. Qed.


(** ** The admin node and the monitor *)

Section Monitors.

Variable env : collaborators.

Local Arguments dumps : simpl never.
Local Arguments loads : simpl never.
Local Arguments path_join : simpl never.
Local Arguments str_of_nat : simpl never.
Local Arguments String.append : simpl never.

Lemma add_admin_mon_node_ok (name : string) (w : world) members dc n linode ip ips :
  fst (load_cluster name w) = Ret (JObj members) ->
  odict_get members "name" = Some (JStr n) ->
  odict_get members "dc" = Some dc ->
  create_linode env (admin_spec dc) w = Some linode ->
  public_ip linode = ip :: ips ->
  let members' :=
    odict_set (odict_set members "admin" (admin_node linode ip n))
      "monitors" (JArr [monitor_node linode ip n]) in
  add_admin_mon_node env name w =
  (Ret JNull,
   {| fs := saved_fs (JObj members') n (fs w);
      trace := trace w ++ [ECreateLinode (admin_spec dc)] |}).
Proof.
  intros Hload Hname Hdc Hl Hip members'. unfold add_admin_mon_node, bind.
  rewrite (load_cluster_fst _ _ _ Hload). cbn. rewrite Hdc. cbn.
  fold (admin_spec dc). rewrite Hl. cbn.
  unfold first_public_ip. rewrite Hip. cbn. rewrite Hname. cbn.
  rewrite odict_get_set_ne by discriminate. rewrite Hname. cbn.
  change (JObj (odict_set (odict_set members "admin" _) "monitors" _)) with (JObj members').
  rewrite (save_cluster_eq members' n).
  - reflexivity.
  - unfold members'. rewrite !odict_get_set_ne by discriminate. exact Hname.
Qed.


(** C6. A cluster [t1] is created and [add_admin_mon_node] gets a machine
    with id ["L1"]: the record loaded afterwards has the admin node as
    [cephadmin], [cephadmin.t1] and the one monitor as [cephmon1],
    [cephmon1.t1], both with the id of the machine, the first of its public
    addresses and its private address. *)
Theorem C6_admin_and_monitor_share_machine (dc : json) (w : world)
    (linode : Linode) (ip : string) (ips : list string) :
  fst (load_cluster "t1" w) = Ret JNull ->
  wf_json dc ->
  create_linode env (admin_spec dc) (snd (create_cluster "t1" dc w)) = Some linode ->
  lin_id linode = SStr "L1" ->
  public_ip linode = ip :: ips ->
  exists w1 w2 admin monitor,
    create_cluster "t1" dc w = (Ret (new_cluster "t1" dc), w1) /\
    add_admin_mon_node env "t1" w1 = (Ret JNull, w2) /\
    fst (load_cluster "t1" w2) =
      Ret (JObj [("name", JStr "t1"); ("dc", dc); ("admin", admin);
                 ("monitors", JArr [monitor]); ("servers", JArr []); ("clients", JArr [])]) /\
    field "fqdn" admin = Some (JStr "cephadmin.t1") /\
    field "fqdn" monitor = Some (JStr "cephmon1.t1") /\
    field "shortname" admin = Some (JStr "cephadmin") /\
    field "shortname" monitor = Some (JStr "cephmon1") /\
    field "id" admin = Some (JStr "L1") /\
    field "id" monitor = Some (JStr "L1") /\
    field "public_ip" admin = Some (JStr ip) /\
    field "public_ip" monitor = Some (JStr ip) /\
    field "private_ip" admin = Some (JStr (private_ip linode)) /\
    field "private_ip" monitor = Some (JStr (private_ip linode)).
Proof.
  intros Hfresh Hdc Hl Hid Hip.
  rewrite (create_cluster_fresh _ _ _ Hfresh) in Hl |- *. cbn [snd] in Hl.
  eexists _, _, (admin_node linode ip "t1"), (monitor_node linode ip "t1").
  split; [reflexivity|].
  split.
  { apply (add_admin_mon_node_ok "t1" _
             [("name", JStr "t1"); ("dc", dc); ("admin", JObj []);
              ("monitors", JArr []); ("servers", JArr []); ("clients", JArr [])]
             dc "t1" linode ip ips); try reflexivity; try assumption.
    rewrite load_saved; [reflexivity | now apply wf_new_cluster]. }
  split.
  { rewrite load_saved; [reflexivity|].
    apply wf_json_set; [apply wf_json_set; [now apply wf_new_cluster | apply wf_named_node]|].
    apply wf_json_arr. constructor; [apply wf_named_node | constructor]. }
  unfold admin_node, monitor_node, named_node, base_node, field. cbn [app odict_get].
  rewrite Hid. repeat split; reflexivity.
Qed.


End Monitors.

Lemma C6_admin_and_monitor_share_machine_witness :
  exists w2 admin monitor,
    add_admin_mon_node delivers_L1 "t1" (snd (create_cluster "t1" (JInt 6) empty_world)) =
      (Ret JNull, w2) /\
    fst (load_cluster "t1" w2) =
      Ret (JObj [("name", JStr "t1"); ("dc", JInt 6); ("admin", admin);
                 ("monitors", JArr [monitor]); ("servers", JArr []); ("clients", JArr [])]) /\
    field "fqdn" admin = Some (JStr "cephadmin.t1") /\
    field "fqdn" monitor = Some (JStr "cephmon1.t1") /\
    field "id" admin = Some (JStr "L1") /\
    field "id" monitor = Some (JStr "L1") /\
    field "public_ip" admin = Some (JStr "1.2.3.4") /\
    field "public_ip" monitor = Some (JStr "1.2.3.4").
Proof.
  destruct (C6_admin_and_monitor_share_machine delivers_L1 (JInt 6) empty_world
              machine_L1 "1.2.3.4" [])
    as (w1 & w2 & admin & monitor & H1 & H2 & H3 & H4 & H5 & _ & _ & H8 & H9 & H10 & H11 & _).
  - vm_compute. reflexivity.
  - exact I.
  - reflexivity.
  - reflexivity.
  - reflexivity.
  - exists w2, admin, monitor.
    rewrite H1. cbn [snd]. repeat split; assumption.
Defined.


(** ** The hosts table *)

Section Hosts.

Variable env : collaborators.

Local Arguments String.append : simpl never.

Lemma getitem_field (k : string) (node : json) (w : world) :
  is_Some (field k node) -> getitem node k w = (Ret (get k node), w).
Proof.
  unfold get. intros [v Hv]. rewrite Hv. destruct node; try discriminate Hv.
  cbn in Hv |- *. now rewrite Hv.
Qed.

Lemma host_entry_ok (node : json) (w : world) :
  has_host_fields node ->
  host_entry node w = (Ret (hosts_line node, get "public_ip" node), w).
Proof.
  intros (H1 & H2 & H3 & H4). unfold host_entry, bind.
  rewrite (getitem_field _ _ _ H1), (getitem_field _ _ _ H2),
    (getitem_field _ _ _ H3), (getitem_field _ _ _ H4).
  reflexivity.
Qed.

Lemma mapM_ok {A B : Type} (f : A -> M B) (g : A -> B) (P : A -> Prop) (l : list A) (w : world) :
  (forall x w', P x -> f x w' = (Ret (g x), w')) ->
  Forall P l ->
  mapM f l w = (Ret (map g l), w).
Proof.
  intros Hf Hl. induction Hl as [|x l Hx Hl IH]; [reflexivity|].
  cbn [mapM map]. unfold bind. rewrite (Hf x w Hx), IH. reflexivity.
Qed.

Lemma update_storage_fqdn_entries_ok (members : list (string * json))
    (admin name : json) (monitors servers : list json) (w : world) :
  odict_get members "admin" = Some admin ->
  odict_get members "monitors" = Some (JArr monitors) ->
  odict_get members "servers" = Some (JArr servers) ->
  odict_get members "name" = Some name ->
  has_host_fields admin ->
  Forall has_host_fields monitors ->
  Forall has_host_fields servers ->
  update_storage_fqdn_entries env (JObj members) w =
  (Ret JNull,
   {| fs := run_playbook env (JArr (hosts_targets admin monitors servers))
              "ansible/modify_hosts_file.yaml"
              [("host_entries", JArr (hosts_table admin monitors servers)); ("cluster", name)] w;
      trace := trace w ++ [hosts_playbook admin monitors servers name] |}).
Proof.
  intros Ha Hm Hs Hn Hfa Hfm Hfs. unfold update_storage_fqdn_entries, bind.
  cbn [getitem]. rewrite Ha. cbn [ret].
  rewrite (host_entry_ok _ _ Hfa). rewrite Hm. cbn [ret py_iter].
  rewrite (mapM_ok host_entry (fun n => (hosts_line n, get "public_ip" n)) has_host_fields)
    by (auto using host_entry_ok).
  rewrite Hs. cbn [ret py_iter].
  rewrite (mapM_ok host_entry (fun n => (hosts_line n, get "public_ip" n)) has_host_fields)
    by (auto using host_entry_ok).
  rewrite Hn. cbn [ret].
  unfold prov_exec_playbook, hosts_playbook, hosts_targets, hosts_table.
  cbn [map fst snd]. rewrite !map_app, !map_map. cbn [fst snd].
  reflexivity.
Qed.

(** C7. For a cluster whose admin node, monitors and servers have their
    addresses and names, [update_storage_fqdn_entries] runs the hosts-file
    playbook once, and nothing else: its table has one line for the admin
    node, then one for each monitor, then one for each server, its targets
    are the public addresses of the same nodes in the same order, and it
    carries the name of the cluster.  The clients play no part: with any
    other value for [clients] the call does the same. *)
Theorem C7_hosts_table (members : list (string * json))
    (admin name : json) (monitors servers : list json) (w : world) :
  odict_get members "admin" = Some admin ->
  odict_get members "monitors" = Some (JArr monitors) ->
  odict_get members "servers" = Some (JArr servers) ->
  odict_get members "name" = Some name ->
  has_host_fields admin ->
  Forall has_host_fields monitors ->
  Forall has_host_fields servers ->
  (exists w',
     update_storage_fqdn_entries env (JObj members) w = (Ret JNull, w') /\
     trace w' = trace w ++ [hosts_playbook admin monitors servers name]) /\
  length (hosts_table admin monitors servers) = 1 + length monitors + length servers /\
  length (hosts_targets admin monitors servers) = 1 + length monitors + length servers /\
  (forall clients,
     update_storage_fqdn_entries env (JObj (odict_set members "clients" clients)) w =
     update_storage_fqdn_entries env (JObj members) w).
Proof.
  intros Ha Hm Hs Hn Hfa Hfm Hfs. split; [|split; [|split]].
  - eexists. split; [now apply (update_storage_fqdn_entries_ok members admin name monitors servers)|].
    reflexivity.
  - unfold hosts_table. cbn [length]. rewrite length_app, !length_map. lia.
  - unfold hosts_targets. cbn [length]. rewrite length_app, !length_map. lia.
  - intros clients.
    rewrite (update_storage_fqdn_entries_ok members admin name monitors servers) by assumption.
    apply update_storage_fqdn_entries_ok; try assumption;
      rewrite odict_get_set_ne by discriminate; assumption.
Qed.

End Hosts.

Lemma sample_node_host_fields (n : string) : has_host_fields (sample_node n).
Proof. repeat split; eexists; reflexivity. Qed.

Lemma C7_hosts_table_witness :
  (exists w',
     update_storage_fqdn_entries mock (JObj sample_members) empty_world = (Ret JNull, w') /\
     trace w' =
       [hosts_playbook (sample_node "0") [sample_node "1"]
          [sample_node "2"; sample_node "3"] (JStr "t1")]) /\
  length (hosts_table (sample_node "0") [sample_node "1"]
            [sample_node "2"; sample_node "3"]) = 4.
Proof.
  destruct (C7_hosts_table mock sample_members (sample_node "0") (JStr "t1")
              [sample_node "1"] [sample_node "2"; sample_node "3"] empty_world)
    as (H1 & H2 & _); try reflexivity.
  - apply sample_node_host_fields.
  - repeat constructor; apply sample_node_host_fields.
  - repeat constructor; apply sample_node_host_fields.
  - split; [exact H1 | exact H2].
Defined.

(** ** Provisioning a client *)

Section Clients.

Variable env : collaborators.

Local Arguments dumps : simpl never.
Local Arguments loads : simpl never.
Local Arguments path_join : simpl never.
Local Arguments str_of_nat : simpl never.
Local Arguments str_of_Z : simpl never.
Local Arguments String.append : simpl never.
Local Arguments strip_newlines : simpl never.
Local Arguments str_join : simpl never.

Lemma bind_ret {A B : Type} (m : M A) (k : A -> M B) (w w' : world) (a : A) :
  m w = (Ret a, w') -> bind m k w = k a w'.
Proof. intros H. unfold bind. now rewrite H. Qed.

Lemma bind_raise {A B : Type} (m : M A) (k : A -> M B) (w w' : world) (e : exn) :
  m w = (Raise e, w') -> bind m k w = (Raise e, w').
Proof. intros H. unfold bind. now rewrite H. Qed.

Lemma ensure_dir (d : string) (w : world) :
  (let* there := path_exists d in if there then ret tt else makedirs d) w =
  (Ret tt, {| fs := with_dir d (fs w); trace := trace w |}).
Proof.
  unfold bind, path_exists, makedirs, get_fs, put_fs, ret, with_dir, bind. cbn.
  destruct (bool_decide _ || bool_decide _) eqn:E; cbn; rewrite ?E; [|reflexivity].
  now destruct w as [[] ?].
Qed.

Lemma node_getitem_last (members : list (string * json)) (l : string)
    (earlier : list json) (node : json) (k : string) (v : json) (w : world) :
  odict_get members l = Some (JArr (earlier ++ [node])) ->
  field k node = Some v ->
  node_getitem (JObj members) {| ref_list := l; ref_index := length earlier |} k w =
  (Ret v, w).
Proof.
  intros Hl Hk. unfold node_getitem, bind. cbn. rewrite Hl. cbn.
  rewrite list_lookup_middle by reflexivity. cbn.
  destruct node; try discriminate Hk. cbn in Hk |- *. now rewrite Hk.
Qed.

Lemma node_getitem_last_missing (members : list (string * json)) (l : string)
    (earlier : list json) (cm : list (string * json)) (k : string) (w : world) :
  odict_get members l = Some (JArr (earlier ++ [JObj cm])) ->
  odict_get cm k = None ->
  node_getitem (JObj members) {| ref_list := l; ref_index := length earlier |} k w =
  (Raise (KeyError k), w).
Proof.
  intros Hl Hk. unfold node_getitem, bind. cbn. rewrite Hl. cbn.
  rewrite list_lookup_middle by reflexivity. cbn. now rewrite Hk.
Qed.

Lemma node_setitem_last (members : list (string * json)) (l : string)
    (earlier : list json) (cm : list (string * json)) (k : string) (v : json) (w : world) :
  odict_get members l = Some (JArr (earlier ++ [JObj cm])) ->
  node_setitem (JObj members) {| ref_list := l; ref_index := length earlier |} k v w =
  (Ret (JObj (odict_set members l (JArr (earlier ++ [JObj (odict_set cm k v)])))), w).
Proof.
  intros Hl. unfold node_setitem, bind. cbn. rewrite Hl. cbn.
  rewrite list_lookup_middle by reflexivity. cbn.
  replace (length earlier) with (length earlier + 0) at 1 by lia.
  rewrite insert_app_r. reflexivity.
Qed.

Lemma py_str_scalar (x : scalar) (w : world) :
  py_str (json_of_scalar x) w = (Ret (str_of_scalar x), w).
Proof. now destruct x. Qed.

Lemma mapM_pubkey (l : list json) (w : world) :
  Forall is_member l ->
  mapM (fun c => getitem c "pubkey") l w = (Ret (map (fun c => JStr (key_of c)) l), w).
Proof.
  apply mapM_ok. intros x w' [Hk _].
  destruct x; try discriminate Hk. cbn in Hk |- *. now rewrite Hk.
Qed.

Lemma mapM_public_ip (l : list json) (w : world) :
  Forall is_member l ->
  mapM (fun c => getitem c "public_ip") l w = (Ret (map (get "public_ip") l), w).
Proof. apply mapM_ok. intros x w' [_ Hk]. now apply getitem_field. Qed.

Lemma mapM_as_str (l : list string) (w : world) :
  mapM as_str (map JStr l) w = (Ret l, w).
Proof.
  induction l as [|s l IH]; [reflexivity|].
  cbn [map mapM]. unfold bind. cbn [as_str ret]. rewrite IH. reflexivity.
Qed.


Lemma getitem_obj (members : list (string * json)) (k : string) (v : json) (w : world) :
  odict_get members k = Some v -> getitem (JObj members) k w = (Ret v, w).
Proof. intros H. cbn. now rewrite H. Qed.

Lemma isfile_eq (p : string) (w : world) :
  isfile p w = (Ret (bool_decide (is_Some (files (fs w) !! p))), w).
Proof. reflexivity. Qed.

Lemma read_file_ok (p text : string) (w : world) :
  files (fs w) !! p = Some text -> read_file p w = (Ret text, w).
Proof. intros H. unfold read_file, bind, get_fs. cbn. now rewrite H. Qed.

Lemma removelast_snoc {A : Type} (l : list A) (x : A) : removelast (l ++ [x]) = l.
Proof. apply removelast_last. Qed.

Lemma ensure_dir_then {B : Type} (d : string) (k : M B) (w : world) :
  (let* there := path_exists d in
   let* _ := (if there then ret tt else makedirs d) in k) w =
  k {| fs := with_dir d (fs w); trace := trace w |}.
Proof.
  unfold bind at 1. unfold path_exists at 1, bind at 1, get_fs at 1, ret at 1.
  cbn [fs]. unfold with_dir.
  destruct (bool_decide _ || bool_decide _) eqn:E.
  - unfold bind, ret. now destruct w as [[] ?].
  - unfold bind, makedirs, bind, get_fs, put_fs. cbn [fs]. rewrite E. reflexivity.
Qed.





End Clients.



(** C9. The key file is absent after the client playbook: the error that
    names the missing path is printed and no [pubkey] is recorded.  With no
    earlier member the key exchange is skipped and the call returns; with
    an earlier member the keys of the members are put on the new client and
    the next step, which needs the key of the new client, raises
    [KeyError] instead of being skipped.  [provision_server] prints the
    same error and goes on to authorize the key of the admin node. *)
Theorem C9_missing_key_raises :
  provision_client delivers_L1 (JObj first_client_members)
    {| ref_list := "clients"; ref_index := 0 |} empty_world =
  (Ret JNull,
   {| fs := with_dir "./cephperfdata/L3" (fs empty_world);
      trace :=
        client_preamble delivers_L1 (JObj first_client_members) (JObj new_client)
          (JStr "1.2.3.3") "L3" ++
        [EPrint "Error: public key ./cephperfdata/L3/id_rsa.pub not found"] |}) /\
  provision_client delivers_L1 (JObj second_client_members)
    {| ref_list := "clients"; ref_index := 1 |} empty_world =
  (Raise (KeyError "pubkey"),
   {| fs := with_dir "./cephperfdata/L3" (fs empty_world);
      trace :=
        client_preamble delivers_L1 (JObj second_client_members) (JObj new_client)
          (JStr "1.2.3.3") "L3" ++
        [EPrint "Error: public key ./cephperfdata/L3/id_rsa.pub not found";
         EPrint "Adding authorized keys";
         authorize_members (JStr "1.2.3.3") ["KEY 1"]] |}) /\
  fst (provision_server delivers_L1 (JObj new_server_members)
         {| ref_list := "servers"; ref_index := 0 |} empty_world) = Ret JNull /\
  trace (snd (provision_server delivers_L1 (JObj new_server_members)
                {| ref_list := "servers"; ref_index := 0 |} empty_world)) =
    [EWaitForPing (JStr "1.2.3.5") 60 10;
     EPrint "Provisioning server";
     EPlaybook (JStr "1.2.3.5") "ansible/change_hostname.yaml"
       [("new_hostname", JStr "cephosdrgw1local")];
     EPlaybook (JStr "1.2.3.5") "ansible/ceph_server.yaml"
       [("local_pubkey_file", JStr "./cephperfdata/t1/pubkeys/cephosdrgw1.t1.pub")];
     EPrint "Error: public key ./cephperfdata/t1/pubkeys/cephosdrgw1.t1.pub not found";
     EPlaybook (JStr "1.2.3.5") "ansible/add_authorized_keys.yaml"
       [("keys", JStr ("KEY 0" +:+ String ch_newline "")); ("cluster", JStr "t1")]].
Proof. repeat split; vm_compute; reflexivity. Qed.

(** Three clients are added in a row to a new cluster without servers:
    the third gets the keys of the first two and its own key goes to the
    addresses of those two. *)
Example three_clients_in_sequence :
  fst (times 3 (add_client mock "t1") t1_world) = Ret JNull /\
  drop 21 (trace (snd (times 3 (add_client mock "t1") t1_world))) =
    [EPrint "Adding authorized keys";
     authorize_members (JStr "1.2.3.15")
       ["KEY ./cephperfdata/100/"; "KEY ./cephperfdata/106/"];
     push_key [JStr "1.2.3.0"; JStr "1.2.3.6"] "KEY ./cephperfdata/115/"].
Proof. split; vm_compute; reflexivity. Qed.

(** ** One file for each name *)

Section Isolation.

Local Arguments String.append : simpl never.

Lemma string_app_inv_head (p a b : string) : p +:+ a = p +:+ b -> a = b.
Proof.
  induction p as [|c p IH]; [now rewrite !append_nil|].
  rewrite !append_cons. intros H. injection H as H. now apply IH.
Qed.


Lemma ends_with_slash_app (a : string) (c : ascii) (b : string) :
  ends_with_slash (a +:+ String c b) = ends_with_slash (String c b).
Proof.
  induction a as [|x a IH]; [reflexivity|].
  rewrite append_cons. cbn [ends_with_slash].
  destruct (a +:+ String c b) eqn:E.
  - destruct a; discriminate E.
  - exact IH.
Qed.




End Isolation.


(** ** Errors of the store and of the add-node operations *)

Section StoreErrors.

Variable env : collaborators.

Local Arguments dumps : simpl never.
Local Arguments loads : simpl never.
Local Arguments path_join : simpl never.
Local Arguments str_of_nat : simpl never.
Local Arguments String.append : simpl never.



(** X4. The add-node operations on a name that has no record raise
    [TypeError] on the first look into the record: the Linode API is not
    called and nothing is written. *)
Theorem X4_add_node_without_cluster (name : string) (w : world) :
  fst (load_cluster name w) = Ret JNull ->
  add_server env name w = (Raise TypeError, w) /\
  add_client env name w = (Raise TypeError, w) /\
  add_admin_mon_node env name w = (Raise TypeError, w) /\
  add_mon_node env name w = (Raise TypeError, w).
Proof.
  intros Hload. apply load_cluster_fst in Hload.
  unfold add_server, add_client, add_admin_mon_node, add_mon_node, bind.
  rewrite Hload. repeat split; reflexivity.
Qed.

(** X5. A machine that comes without a public address: each add-node
    operation raises [IndexError] after the machine has been asked for, and
    has written nothing, so the machine exists and the record does not
    know it. *)
Theorem X5_machine_without_address (name : string) (w : world)
    (members : list (string * json)) (dc : json) (servers clients : list json)
    (linode : Linode) :
  fst (load_cluster name w) = Ret (JObj members) ->
  odict_get members "dc" = Some dc ->
  odict_get members "servers" = Some (JArr servers) ->
  odict_get members "clients" = Some (JArr clients) ->
  public_ip linode = [] ->
  (create_linode env (server_spec dc (length servers + 1)) w = Some linode ->
   add_server env name w =
   (Raise IndexError, said w [ECreateLinode (server_spec dc (length servers + 1))])) /\
  (create_linode env (client_spec dc (length clients + 1)) w = Some linode ->
   add_client env name w =
   (Raise IndexError, said w [ECreateLinode (client_spec dc (length clients + 1))])) /\
  (create_linode env (admin_spec dc) w = Some linode ->
   add_admin_mon_node env name w =
   (Raise IndexError, said w [ECreateLinode (admin_spec dc)])) /\
  (create_linode env (mon_spec dc) w = Some linode ->
   add_mon_node env name w =
   (Raise IndexError, said w [ECreateLinode (mon_spec dc)])) /\
  (forall es, fst (load_cluster name (said w es)) = Ret (JObj members)).
Proof.
  intros Hload Hdc Hs Hc Hip. pose proof (load_cluster_fst _ _ _ Hload) as Hl.
  split; [|split; [|split; [|split]]].
  - intros Hm. unfold add_server, bind. rewrite Hl. cbn. rewrite Hs. cbn. rewrite Hdc. cbn.
    fold (server_spec dc (length servers + 1)). rewrite Hm. cbn.
    unfold first_public_ip. rewrite Hip. reflexivity.
  - intros Hm. unfold add_client, bind. rewrite Hl. cbn. rewrite Hc. cbn. rewrite Hdc. cbn.
    fold (client_spec dc (length clients + 1)). rewrite Hm. cbn.
    unfold first_public_ip. rewrite Hip. reflexivity.
  - intros Hm. unfold add_admin_mon_node, bind. rewrite Hl. cbn. rewrite Hdc. cbn.
    fold (admin_spec dc). rewrite Hm. cbn.
    unfold first_public_ip. rewrite Hip. reflexivity.
  - intros Hm. unfold add_mon_node, bind. rewrite Hl. cbn. rewrite Hdc. cbn.
    fold (mon_spec dc). rewrite Hm. cbn.
    unfold first_public_ip. rewrite Hip. reflexivity.
  - intros es. now rewrite load_cluster_said.
Qed.

End StoreErrors.



Lemma X4_add_node_without_cluster_witness :
  add_server mock "t1" empty_world = (Raise TypeError, empty_world) /\
  add_client mock "t1" empty_world = (Raise TypeError, empty_world).
Proof.
  destruct (X4_add_node_without_cluster mock "t1" empty_world) as (H1 & H2 & _).
  - vm_compute. reflexivity.
  - split; assumption.
Defined.

Lemma X5_machine_without_address_witness :
  add_server delivers_without_address "t1" t1_world =
    (Raise IndexError, said t1_world [ECreateLinode (server_spec (JInt 6) 1)]) /\
  fst (load_cluster "t1" (said t1_world [ECreateLinode (server_spec (JInt 6) 1)])) =
    Ret (new_cluster "t1" (JInt 6)).
Proof.
  destruct (X5_machine_without_address delivers_without_address "t1" t1_world
              [("name", JStr "t1"); ("dc", JInt 6); ("admin", JObj []);
               ("monitors", JArr []); ("servers", JArr []); ("clients", JArr [])]
              (JInt 6) [] [] machine_without_address)
    as (H1 & _ & _ & _ & H5).
  - vm_compute. reflexivity.
  - reflexivity.
  - reflexivity.
  - reflexivity.
  - reflexivity.
  - split; [apply H1; reflexivity | apply H5].
Defined.

(** ** Provisioning: an unreachable node, and a server *)

Section Provisioning.

Variable env : collaborators.

Local Arguments dumps : simpl never.
Local Arguments loads : simpl never.
Local Arguments path_join : simpl never.
Local Arguments str_of_nat : simpl never.
Local Arguments str_of_Z : simpl never.
Local Arguments String.append : simpl never.
Local Arguments strip_newlines : simpl never.
Local Arguments str_join : simpl never.

Ltac go_with tac := erewrite bind_ret by tac; cbn [fs trace].
Ltac go := go_with ltac:(reflexivity).

Lemma node_getitem_at (members : list (string * json)) (l : string) (items : list json)
    (i : nat) (node : json) (k : string) (v : json) (w : world) :
  odict_get members l = Some (JArr items) ->
  items !! i = Some node ->
  field k node = Some v ->
  node_getitem (JObj members) {| ref_list := l; ref_index := i |} k w = (Ret v, w).
Proof.
  intros Hl Hi Hk. unfold node_getitem, bind. cbn. rewrite Hl. cbn. rewrite Hi. cbn.
  destruct node; try discriminate Hk. cbn in Hk |- *. now rewrite Hk.
Qed.

Lemma node_getitem_at_missing (members : list (string * json)) (l : string)
    (items : list json) (i : nat) (nm : list (string * json)) (k : string) (w : world) :
  odict_get members l = Some (JArr items) ->
  items !! i = Some (JObj nm) ->
  odict_get nm k = None ->
  node_getitem (JObj members) {| ref_list := l; ref_index := i |} k w =
  (Raise (KeyError k), w).
Proof.
  intros Hl Hi Hk. unfold node_getitem, bind. cbn. rewrite Hl. cbn. rewrite Hi. cbn.
  now rewrite Hk.
Qed.


(** X6. A client that cannot be reached: [provision_client] prints the
    record and the client, probes, says that it cannot reach the address
    and returns; no playbook runs and no directory or file is made. *)
Theorem X6_unreachable_client (members : list (string * json)) (items : list json)
    (i : nat) (cm : list (string * json)) (ip : string) (w : world) :
  odict_get members "clients" = Some (JArr items) ->
  items !! i = Some (JObj cm) ->
  odict_get cm "public_ip" = Some (JStr ip) ->
  wait_for_ping env (JStr ip) 60 10
    (said w [EPrintValue (JObj members); EPrintValue (JObj cm)]) = false ->
  provision_client env (JObj members) {| ref_list := "clients"; ref_index := i |} w =
  (Ret JNull,
   said w [EPrintValue (JObj members); EPrintValue (JObj cm);
           EWaitForPing (JStr ip) 60 10;
           EPrint ("Unable to reach " +:+ ip +:+ " over SSH")]).
Proof.
  intros Hc Hi Hip Hping. unfold provision_client.
  go. go_with ltac:(eapply getitem_obj; eassumption).
  go_with ltac:(cbn; rewrite Hi; reflexivity).
  go. go_with ltac:(eapply (node_getitem_at _ _ _ _ (JObj cm)); eassumption).
  go. unfold said in Hping. cbn [fs trace] in *. rewrite <- app_assoc. cbn [app]. rewrite Hping. cbn [negb].
  go_with ltac:(eapply (node_getitem_at _ _ _ _ (JObj cm)); eassumption).
  go. go. unfold said, ret. rewrite <- !app_assoc. reflexivity.
Qed.

(** X7. [provision_server] probes the server and does not look at the
    answer: unreachable or not, it does the same. *)
Theorem X7_server_probe_ignored (answer : bool) (cluster : json) (server : node_ref)
    (w : world) :
  provision_server (with_ping env answer) cluster server w =
  provision_server env cluster server w.
Proof. reflexivity. Qed.




End Provisioning.

Lemma X6_unreachable_client_witness :
  provision_client no_machine (JObj first_client_members)
    {| ref_list := "clients"; ref_index := 0 |} empty_world =
  (Ret JNull,
   said empty_world
     [EPrintValue (JObj first_client_members); EPrintValue (JObj new_client);
      EWaitForPing (JStr "1.2.3.3") 60 10;
      EPrint "Unable to reach 1.2.3.3 over SSH"]).
Proof.
  exact (X6_unreachable_client no_machine first_client_members [JObj new_client] 0
           new_client "1.2.3.3" empty_world eq_refl eq_refl eq_refl eq_refl).
Defined.



(** ** The hosts table of a cluster built by the module *)

Section HostsOfBuiltCluster.

Variable env : collaborators.

Local Arguments dumps : simpl never.
Local Arguments loads : simpl never.
Local Arguments path_join : simpl never.
Local Arguments str_of_nat : simpl never.
Local Arguments str_of_Z : simpl never.
Local Arguments String.append : simpl never.

Lemma getitem_quiet (d : json) (k : string) (w : world) :
  exists o, getitem d k w = (o, w).
Proof.
  destruct d; cbn; eauto. destruct (odict_get _ _); cbn; eauto.
Qed.

Lemma py_iter_quiet (x : json) (w : world) : exists o, py_iter x w = (o, w).
Proof. destruct x; cbn; eauto. Qed.

Lemma host_entry_quiet (node : json) (w : world) : exists o, host_entry node w = (o, w).
Proof.
  unfold host_entry.
  destruct (getitem_quiet node "private_ip" w) as [[a|e] H];
    [erewrite bind_ret by exact H | erewrite bind_raise by exact H; eauto].
  destruct (getitem_quiet node "fqdn" w) as [[b|e] H2];
    [erewrite bind_ret by exact H2 | erewrite bind_raise by exact H2; eauto].
  destruct (getitem_quiet node "shortname" w) as [[c|e] H3];
    [erewrite bind_ret by exact H3 | erewrite bind_raise by exact H3; eauto].
  destruct (getitem_quiet node "public_ip" w) as [[d|e] H4];
    [erewrite bind_ret by exact H4 | erewrite bind_raise by exact H4; eauto].
  eauto.
Qed.

Lemma mapM_quiet {A B : Type} (f : A -> M B) (l : list A) (w : world) :
  (forall x w', exists o, f x w' = (o, w')) ->
  exists o, mapM f l w = (o, w).
Proof.
  intros Hf. induction l as [|x l [o IH]]; cbn [mapM]; [eauto|].
  destruct (Hf x w) as [[a|e] H];
    [erewrite bind_ret by exact H | erewrite bind_raise by exact H; eauto].
  destruct o as [ys|e];
    [erewrite bind_ret by exact IH | erewrite bind_raise by exact IH; eauto].
  eauto.
Qed.

(** X10. [update_storage_fqdn_entries] does all or nothing: either the
    hosts playbook runs once, on a list of targets with a table of as many
    lines, and [None] is returned, or an exception is raised before
    anything has been said or done. *)
Theorem X10_hosts_all_or_nothing (cluster : json) (w : world) :
  (exists targets table name,
     update_storage_fqdn_entries env cluster w =
     (Ret JNull,
      {| fs := run_playbook env (JArr targets) "ansible/modify_hosts_file.yaml"
                 [("host_entries", JArr table); ("cluster", name)] w;
         trace := trace w ++
                  [EPlaybook (JArr targets) "ansible/modify_hosts_file.yaml"
                     [("host_entries", JArr table); ("cluster", name)]] |}) /\
     length targets = length table /\ 0 < length table) \/
  (exists e, update_storage_fqdn_entries env cluster w = (Raise e, w)).
Proof.
  unfold update_storage_fqdn_entries.
  destruct (getitem_quiet cluster "admin" w) as [[admin|e] H1];
    [erewrite bind_ret by exact H1 | erewrite bind_raise by exact H1; eauto].
  destruct (host_entry_quiet admin w) as [[entry|e] H2];
    [erewrite bind_ret by exact H2 | erewrite bind_raise by exact H2; eauto].
  destruct (getitem_quiet cluster "monitors" w) as [[mons|e] H3];
    [erewrite bind_ret by exact H3 | erewrite bind_raise by exact H3; eauto].
  destruct (py_iter_quiet mons w) as [[monitors|e] H4];
    [erewrite bind_ret by exact H4 | erewrite bind_raise by exact H4; eauto].
  destruct (mapM_quiet host_entry monitors w host_entry_quiet) as [[mon_entries|e] H5];
    [erewrite bind_ret by exact H5 | erewrite bind_raise by exact H5; eauto].
  destruct (getitem_quiet cluster "servers" w) as [[srvs|e] H6];
    [erewrite bind_ret by exact H6 | erewrite bind_raise by exact H6; eauto].
  destruct (py_iter_quiet srvs w) as [[servers|e] H7];
    [erewrite bind_ret by exact H7 | erewrite bind_raise by exact H7; eauto].
  destruct (mapM_quiet host_entry servers w host_entry_quiet) as [[server_entries|e] H8];
    [erewrite bind_ret by exact H8 | erewrite bind_raise by exact H8; eauto].
  destruct (getitem_quiet cluster "name" w) as [[name|e] H9];
    [erewrite bind_ret by exact H9 | erewrite bind_raise by exact H9; eauto].
  left. eexists _, _, _. split; [reflexivity|].
  rewrite !length_map. cbn [length]. split; [reflexivity | lia].
Qed.

(** X11. Before there is an admin node the hosts table cannot be made:
    on a record whose [admin] is a dictionary without [private_ip], as in
    a new cluster, [update_storage_fqdn_entries] raises [KeyError] and
    runs nothing. *)
Theorem X11_hosts_need_admin (members am : list (string * json)) (w : world) :
  odict_get members "admin" = Some (JObj am) ->
  odict_get am "private_ip" = None ->
  update_storage_fqdn_entries env (JObj members) w = (Raise (KeyError "private_ip"), w).
Proof.
  intros Ha Hp. unfold update_storage_fqdn_entries.
  erewrite bind_ret by (eapply getitem_obj; exact Ha).
  erewrite bind_raise; [reflexivity|].
  unfold host_entry. erewrite bind_raise; [reflexivity|]. cbn. now rewrite Hp.
Qed.

Lemma odict_set_set (d : list (string * json)) (k : string) (v v' : json) :
  odict_set (odict_set d k v) k v' = odict_set d k v'.
Proof.
  induction d as [|[k0 v0] d IH]; cbn [odict_set].
  - now rewrite String.eqb_refl.
  - destruct (String.eqb_spec k0 k) as [->|Hne]; cbn [odict_set].
    + now rewrite String.eqb_refl.
    + destruct (String.eqb_spec k0 k); [contradiction|]. now rewrite IH.
Qed.

Lemma odict_set_same (d : list (string * json)) (k : string) (v : json) :
  odict_get d k = Some v -> odict_set d k v = d.
Proof.
  induction d as [|[k0 v0] d IH]; cbn [odict_set odict_get]; [discriminate|].
  destruct (String.eqb_spec k0 k) as [->|Hne].
  - intros H. now injection H as ->.
  - intros H. now rewrite IH.
Qed.

Lemma add_servers_from (name : string) (k : nat) (w : world)
    (members : list (string * json)) (dc : json) (ss0 : list json) :
  always_delivers env ->
  fst (load_cluster name w) = Ret (JObj members) ->
  odict_get members "name" = Some (JStr name) ->
  odict_get members "dc" = Some dc ->
  odict_get members "servers" = Some (JArr ss0) ->
  exists w' added,
    times k (add_server env name) w = (Ret JNull, w') /\
    fst (load_cluster name w') =
      Ret (JObj (odict_set members "servers" (JArr (ss0 ++ added)))) /\
    trace w' = trace w ++ server_requests dc (length ss0) k /\
    Forall2 (fun j s => exists linode ip, s = server_node linode ip name (length ss0 + j + 1))
      (seq 0 k) added.
Proof.
  intros Henv Hload Hname Hdc Hs.
  induction k as [|k (w' & added & Hrun & Hload' & Htrace & Hadded)].
  - exists w, []. cbn [times]. split; [reflexivity|]. split; [|split].
    + rewrite app_nil_r, odict_set_same by exact Hs. exact Hload.
    + unfold server_requests. cbn. now rewrite app_nil_r.
    + constructor.
  - pose proof (Forall2_length _ _ _ Hadded) as Hlen. rewrite length_seq in Hlen.
    set (members' := odict_set members "servers" (JArr (ss0 ++ added))) in *.
    destruct (Henv (server_spec dc (length (ss0 ++ added) + 1)) w')
      as (linode & ip & ips & Hl & Hip).
    assert (Hn' : odict_get members' "name" = Some (JStr name))
      by (unfold members'; now rewrite odict_get_set_ne).
    assert (Hd' : odict_get members' "dc" = Some dc)
      by (unfold members'; now rewrite odict_get_set_ne).
    assert (Hs' : odict_get members' "servers" = Some (JArr (ss0 ++ added)))
      by apply odict_get_set_eq.
    pose proof (add_server_ok env name w' members' dc (ss0 ++ added) linode ip ips
                  Hload' Hn' Hd' Hs' Hl Hip) as Hadd.
    cbv zeta in Hadd. unfold members' in Hadd at 1. rewrite odict_set_set in Hadd.
    eexists _, (added ++ [server_node linode ip name (length (ss0 ++ added) + 1)]).
    split; [rewrite times_S, Hrun; exact Hadd|]. cbn [trace]. split; [|split].
    + rewrite load_saved; [now rewrite app_assoc|].
      pose proof (load_cluster_wf _ _ _ Hload) as Hwf.
      pose proof (load_cluster_wf _ _ _ Hload') as Hwf'.
      apply wf_json_set; [exact Hwf|].
      apply wf_json_append; [now apply (wf_json_get members' "servers") | apply wf_named_node].
    + rewrite Htrace. unfold server_requests. rewrite seq_snoc, map_app, app_assoc.
      cbn [map]. rewrite length_app, <- Hlen. reflexivity.
    + rewrite seq_snoc. apply Forall2_app; [exact Hadded|].
      constructor; [|constructor]. exists linode, ip.
      rewrite length_app, <- Hlen. reflexivity.
Qed.

Lemma has_host_fields_named_node (linode : Linode) (ip fqdn shortname : string) :
  has_host_fields (named_node linode ip fqdn shortname).
Proof. repeat split; eexists; reflexivity. Qed.

Lemma str_of_nat_inj (a b : nat) : str_of_nat a = str_of_nat b -> a = b.
Proof.
  unfold str_of_nat. intros H.
  pose proof (scan_number_str_of_Z (Z.of_nat a) "" I) as Ha.
  pose proof (scan_number_str_of_Z (Z.of_nat b) "" I) as Hb.
  rewrite H, Hb in Ha. injection Ha as Ha. lia.
Qed.


(** X13. Servers stay named by position, and no two share a name: on a
    stored record whose servers are named by position, [k] calls of
    [add_server] ask for [k] machines, labelled with the positions that
    follow, and leave a stored record whose servers are named by position
    and have pairwise distinct short names. *)
Theorem X13_server_names_distinct (name : string) (k : nat) (w : world)
    (members : list (string * json)) (dc : json) (ss0 : list json) :
  always_delivers env ->
  fst (load_cluster name w) = Ret (JObj members) ->
  odict_get members "name" = Some (JStr name) ->
  odict_get members "dc" = Some dc ->
  odict_get members "servers" = Some (JArr ss0) ->
  named_by_position ss0 ->
  exists w' servers,
    times k (add_server env name) w = (Ret JNull, w') /\
    fst (load_cluster name w') = Ret (JObj (odict_set members "servers" (JArr servers))) /\
    trace w' = trace w ++ server_requests dc (length ss0) k /\
    length servers = length ss0 + k /\
    named_by_position servers /\
    NoDup (map (field "shortname") servers).
Proof.
  intros Henv Hload Hname Hdc Hs Hss0.
  destruct (add_servers_from name k w members dc ss0 Henv Hload Hname Hdc Hs)
    as (w' & added & Hrun & Hload' & Htrace & Hadded).
  pose proof (Forall2_length _ _ _ Hadded) as Hlen. rewrite length_seq in Hlen.
  assert (Hpos : named_by_position (ss0 ++ added)).
  { intros j s Hj. apply lookup_app_Some in Hj as [Hj | [Hge Hj]]; [now apply Hss0|].
    destruct (Forall2_lookup_r _ _ _ _ _ Hadded Hj) as (x & Hx & l & i & ->).
    apply lookup_seq in Hx as [-> _].
    replace (length ss0 + (0 + (j - length ss0)) + 1) with (j + 1) by lia. reflexivity. }
  exists w', (ss0 ++ added). split; [exact Hrun|]. split; [exact Hload'|].
  split; [exact Htrace|]. split; [rewrite length_app; lia|]. split; [exact Hpos|].
  apply NoDup_alt. intros a b x Ha Hb.
  rewrite list_lookup_fmap in Ha, Hb.
  destruct ((ss0 ++ added) !! a) as [sa|] eqn:Ea; [|discriminate].
  destruct ((ss0 ++ added) !! b) as [sb|] eqn:Eb; [|discriminate].
  cbn in Ha, Hb. rewrite (Hpos _ _ Ea) in Ha. rewrite (Hpos _ _ Eb) in Hb.
  rewrite <- Hb in Ha. injection Ha as Ha.
  apply string_app_inv_head, str_of_nat_inj in Ha. lia.
Qed.

End HostsOfBuiltCluster.

Lemma X11_hosts_need_admin_witness :
  update_storage_fqdn_entries mock (new_cluster "t1" (JInt 6)) empty_world =
  (Raise (KeyError "private_ip"), empty_world).
Proof.
  exact (X11_hosts_need_admin mock
           [("name", JStr "t1"); ("dc", JInt 6); ("admin", JObj []); ("monitors", JArr []);
            ("servers", JArr []); ("clients", JArr [])] [] empty_world eq_refl eq_refl).
Defined.


Lemma X13_server_names_distinct_witness :
  exists w' servers,
    times 2 (add_server mock "t1") t1_world = (Ret JNull, w') /\
    length servers = 2 /\
    NoDup (map (field "shortname") servers).
Proof.
  destruct (X13_server_names_distinct mock "t1" 2 t1_world
              [("name", JStr "t1"); ("dc", JInt 6); ("admin", JObj []); ("monitors", JArr []);
               ("servers", JArr []); ("clients", JArr [])] (JInt 6) [] mock_always_delivers)
    as (w' & servers & H1 & _ & _ & H2 & _ & H3); try reflexivity.
  - intros j s H. discriminate H.
  - exists w', servers. auto.
Defined.

(** ** A client from request to stored key *)

Section ClientStored.

Variable env : collaborators.

Local Arguments dumps : simpl never.
Local Arguments loads : simpl never.
Local Arguments path_join : simpl never.
Local Arguments str_of_nat : simpl never.
Local Arguments str_of_Z : simpl never.
Local Arguments String.append : simpl never.
Local Arguments strip_newlines : simpl never.
Local Arguments str_join : simpl never.

Ltac go_with tac := erewrite bind_ret by tac; cbn [fs trace].
Ltac go := go_with ltac:(reflexivity).

Lemma provision_client_saved (members : list (string * json)) (earlier servers : list json)
    (cm : list (string * json)) (n : string) (ip : json) (id : scalar) (text : string)
    (w : world) :
  odict_get members "clients" = Some (JArr (earlier ++ [JObj cm])) ->
  odict_get members "servers" = Some (JArr servers) ->
  odict_get members "name" = Some (JStr n) ->
  odict_get cm "public_ip" = Some ip ->
  odict_get cm "id" = Some (json_of_scalar id) ->
  Forall is_member earlier ->
  Forall is_member servers ->
  (forall w', wait_for_ping env ip 60 10 w' = true) ->
  (forall w',
     files (run_playbook env ip "ansible/perf_client.yaml"
              [("pubkey_dir", JStr (abspath env (key_dir_of (str_of_scalar id) +:+ "/")))] w')
       !! key_file_of (str_of_scalar id) = Some text) ->
  authorizing_is_remote env ->
  exists w' f,
    provision_client env (JObj members)
      {| ref_list := "clients"; ref_index := length earlier |} w = (Ret JNull, w') /\
    fs w' =
      saved_fs (JObj (odict_set members "clients"
                        (JArr (earlier ++ [JObj (odict_set cm "pubkey"
                                                   (JStr (strip_newlines text)))]))))
        n f.
Proof.
  intros Hc Hs Hn Hip Hid Hearlier Hservers Hping Hkey Hquiet.
  unfold key_file_of, key_dir_of in Hkey.
  set (members' := odict_set members "clients"
                     (JArr (earlier ++ [JObj (odict_set cm "pubkey"
                                                (JStr (strip_newlines text)))]))).
  assert (Hc' : odict_get members' "clients" =
                Some (JArr (earlier ++ [JObj (odict_set cm "pubkey"
                                                (JStr (strip_newlines text)))])))
    by apply odict_get_set_eq.
  assert (Hs' : odict_get members' "servers" = Some (JArr servers))
    by (unfold members'; now rewrite odict_get_set_ne).
  assert (Hn' : odict_get members' "name" = Some (JStr n))
    by (unfold members'; now rewrite odict_get_set_ne).
  assert (Hip' : odict_get (odict_set cm "pubkey" (JStr (strip_newlines text))) "public_ip" =
                 Some ip) by now rewrite odict_get_set_ne.
  assert (Hall : Forall is_member (earlier ++ servers)) by now apply Forall_app.
  unfold provision_client.
  go. go_with ltac:(eapply getitem_obj; eassumption).
  go_with ltac:(cbn; rewrite list_lookup_middle by reflexivity; reflexivity).
  go. go_with ltac:(eapply (node_getitem_last _ _ _ (JObj cm)); eassumption).
  go. rewrite Hping. cbn [negb].
  go_with ltac:(eapply (node_getitem_last _ _ _ (JObj cm)); eassumption).
  go_with ltac:(apply py_str_scalar).
  rewrite ensure_dir_then. cbn [fs trace].
  go. go_with ltac:(eapply (node_getitem_last _ _ _ (JObj cm)); eassumption).
  go. go_with ltac:(apply isfile_eq). rewrite Hkey.
  rewrite bool_decide_eq_true_2 by eauto.
  go_with ltac:(
    go_with ltac:(apply read_file_ok; cbn [fs]; apply Hkey);
    go_with ltac:(eapply node_setitem_last; eassumption);
    fold members';
    go_with ltac:(eapply save_cluster_eq; eassumption);
    reflexivity).
  go_with ltac:(eapply getitem_obj; eassumption).
  go. cbn [py_iter]. go. rewrite removelast_snoc.
  go_with ltac:(apply mapM_pubkey; assumption).
  go_with ltac:(eapply getitem_obj; eassumption).
  go. go_with ltac:(apply mapM_pubkey; assumption).
  rewrite <- map_app.
  destruct (earlier ++ servers) as [|m ms] eqn:E.
  - eexists _, _. split; reflexivity.
  - cbn [map]. rewrite <- (map_cons (fun c => JStr (key_of c))), <- (map_map key_of JStr).
    go_with ltac:(apply mapM_as_str).
    go.
    go_with ltac:(eapply (node_getitem_last _ _ _
                             (JObj (odict_set cm "pubkey" (JStr (strip_newlines text)))));
                   [eassumption | exact Hip']).
    go. go_with ltac:(eapply getitem_obj; eassumption).
    go. cbn [py_iter]. go. rewrite removelast_snoc.
    go_with ltac:(apply mapM_public_ip; assumption).
    go_with ltac:(eapply getitem_obj; eassumption).
    go. go_with ltac:(apply mapM_public_ip; assumption).
    go_with ltac:(eapply (node_getitem_last _ _ _
                             (JObj (odict_set cm "pubkey" (JStr (strip_newlines text)))));
                   [eassumption | apply odict_get_set_eq]).
    go. go.
    eexists _, _. split; [reflexivity|]. cbn [fs]. rewrite !Hquiet. cbn [fs]. reflexivity.
Qed.

(** X14. A client from request to stored key: on a stored record whose
    clients and servers all have their keys, with a machine delivered,
    reachable, its key fetched, and the authorized-keys playbook leaving
    the local files alone, [add_client] returns [None] and the stored
    record is the old one with one more client, which has the fetched key
    without its line ends. *)
Theorem X14_add_client_stores_key (name : string) (w : world)
    (members : list (string * json)) (dc : json) (clients servers : list json)
    (linode : Linode) (ip : string) (ips : list string) (text : string) :
  fst (load_cluster name w) = Ret (JObj members) ->
  odict_get members "name" = Some (JStr name) ->
  odict_get members "dc" = Some dc ->
  odict_get members "clients" = Some (JArr clients) ->
  odict_get members "servers" = Some (JArr servers) ->
  Forall is_member clients ->
  Forall is_member servers ->
  create_linode env (client_spec dc (length clients + 1)) w = Some linode ->
  public_ip linode = ip :: ips ->
  (forall w', wait_for_ping env (JStr ip) 60 10 w' = true) ->
  (forall w',
     files (run_playbook env (JStr ip) "ansible/perf_client.yaml"
              [("pubkey_dir",
                JStr (abspath env (key_dir_of (str_of_scalar (lin_id linode)) +:+ "/")))] w')
       !! key_file_of (str_of_scalar (lin_id linode)) = Some text) ->
  authorizing_is_remote env ->
  exists w',
    add_client env name w = (Ret JNull, w') /\
    fst (load_cluster name w') =
      Ret (JObj (odict_set members "clients"
                   (JArr (clients ++ [keyed_client linode ip (strip_newlines text)])))).
Proof.
  intros Hload Hname Hdc Hc Hs Hcs Hss Hl Hip Hping Hkey Hquiet.
  rewrite (add_client_ok env name w members dc clients linode ip ips Hload Hname Hdc Hc Hl Hip).
  cbv zeta.
  set (members' := odict_set members "clients" (JArr (clients ++ [client_node linode ip]))).
  destruct (provision_client_saved members' clients servers (base_node linode ip) name
              (JStr ip) (lin_id linode) text
              {| fs := saved_fs (JObj members') name (fs w);
                 trace := trace w ++ [ECreateLinode (client_spec dc (length clients + 1))] |})
    as (w' & f & Hrun & Hfs); try assumption; try reflexivity.
  - apply odict_get_set_eq.
  - unfold members'. now rewrite odict_get_set_ne.
  - unfold members'. now rewrite odict_get_set_ne.
  - exists w'. erewrite bind_ret by exact Hrun. split; [reflexivity|].
    unfold members' in Hfs. rewrite odict_set_set in Hfs.
    destruct w' as [f' t']. cbn [fs] in Hfs. subst f'.
    rewrite load_saved; [reflexivity|].
    pose proof (load_cluster_wf _ _ _ Hload) as Hwf.
    apply wf_json_set; [exact Hwf|].
    apply wf_json_append; [now apply (wf_json_get members "clients")|].
    apply wf_json_set; [apply wf_client_node | constructor].
Qed.

End ClientStored.

Lemma mock_authorizing_is_remote : authorizing_is_remote mock.
Proof. intros targets keys w. reflexivity. Qed.

Lemma X14_add_client_stores_key_witness :
  exists w',
    add_client mock "t1" t1_world = (Ret JNull, w') /\
    fst (load_cluster "t1" w') =
      Ret (JObj [("name", JStr "t1"); ("dc", JInt 6); ("admin", JObj []);
                 ("monitors", JArr []); ("servers", JArr []);
                 ("clients",
                  JArr [JObj [("id", JInt 100); ("public_ip", JStr "1.2.3.0");
                              ("private_ip", JStr "10.0.0.0");
                              ("pubkey", JStr "KEY ./cephperfdata/100/")]])]).
Proof.
  destruct (X14_add_client_stores_key mock "t1" t1_world
              [("name", JStr "t1"); ("dc", JInt 6); ("admin", JObj []); ("monitors", JArr []);
               ("servers", JArr []); ("clients", JArr [])] (JInt 6) [] []
              {| lin_id := SInt 100; public_ip := ["1.2.3.0"]; private_ip := "10.0.0.0" |}
              "1.2.3.0" [] ("KEY ./cephperfdata/100/" +:+ String ch_newline ""))
    as (w' & Hrun & Hload); try reflexivity.
  - constructor.
  - constructor.
  - intros w'. apply lookup_insert_eq.
  - exact mock_authorizing_is_remote.
  - exists w'. split; [exact Hrun | exact Hload].
Defined.

(** ** Provisioning the admin node, and the script *)

Section AdminNode.

Variable env : collaborators.

Local Arguments dumps : simpl never.
Local Arguments loads : simpl never.
Local Arguments path_join : simpl never.
Local Arguments str_of_nat : simpl never.
Local Arguments str_of_Z : simpl never.
Local Arguments String.append : simpl never.
Local Arguments strip_newlines : simpl never.
Local Arguments str_join : simpl never.

Ltac go_with tac := erewrite bind_ret by tac; cbn [fs trace].
Ltac go := go_with ltac:(reflexivity).

Lemma admin_getitem_ok (members am : list (string * json)) (k : string) (v : json)
    (w : world) :
  odict_get members "admin" = Some (JObj am) ->
  odict_get am k = Some v ->
  admin_getitem (JObj members) k w = (Ret v, w).
Proof.
  intros Ha Hk. unfold admin_getitem.
  erewrite bind_ret by (eapply getitem_obj; exact Ha). now apply getitem_obj.
Qed.

Lemma admin_getitem_missing (members am : list (string * json)) (k : string) (w : world) :
  odict_get members "admin" = Some (JObj am) ->
  odict_get am k = None ->
  admin_getitem (JObj members) k w = (Raise (KeyError k), w).
Proof.
  intros Ha Hk. unfold admin_getitem.
  erewrite bind_ret by (eapply getitem_obj; exact Ha). cbn. now rewrite Hk.
Qed.

Lemma admin_setitem_ok (members am : list (string * json)) (k : string) (v : json)
    (w : world) :
  odict_get members "admin" = Some (JObj am) ->
  admin_setitem (JObj members) k v w =
  (Ret (JObj (odict_set members "admin" (JObj (odict_set am k v)))), w).
Proof.
  intros Ha. unfold admin_setitem.
  erewrite bind_ret by (eapply getitem_obj; exact Ha). reflexivity.
Qed.

Lemma has_host_fields_hostname (am : list (string * json)) (v : json) :
  has_host_fields (JObj am) -> has_host_fields (JObj (odict_set am "hostname" v)).
Proof.
  unfold has_host_fields, field. now rewrite !odict_get_set_ne by discriminate.
Qed.

Lemma hosts_playbook_hostname (am : list (string * json)) (v : json)
    (monitors servers : list json) (name : json) :
  hosts_playbook (JObj (odict_set am "hostname" v)) monitors servers name =
  hosts_playbook (JObj am) monitors servers name.
Proof.
  unfold hosts_playbook, hosts_targets, hosts_table, hosts_line, get, field.
  now rewrite !odict_get_set_ne by discriminate.
Qed.

(** X15. An admin node that cannot be reached: [provision_admin_mon]
    prints the record and the admin entry, probes, says that it cannot
    reach the address and returns; the entry gets no host name, no
    playbook runs and nothing is written. *)
Theorem X15_unreachable_admin (members am : list (string * json)) (ip : string)
    (w : world) :
  odict_get members "admin" = Some (JObj am) ->
  odict_get am "public_ip" = Some (JStr ip) ->
  wait_for_ping env (JStr ip) 60 10
    (said w [EPrintValue (JObj members); EPrintValue (JObj am)]) = false ->
  provision_admin_mon env (JObj members) w =
  (Ret JNull,
   said w [EPrintValue (JObj members); EPrintValue (JObj am);
           EWaitForPing (JStr ip) 60 10;
           EPrint ("Unable to reach " +:+ ip +:+ " over SSH")]).
Proof.
  intros Ha Hip Hping. unfold provision_admin_mon.
  go_with ltac:(eapply getitem_obj; exact Ha).
  go. go. go_with ltac:(eapply admin_getitem_ok; eassumption).
  go. unfold said in Hping. cbn [fs trace] in *. rewrite <- app_assoc. cbn [app].
  rewrite Hping. cbn [negb].
  go. go. unfold said, ret. rewrite <- !app_assoc. reflexivity.
Qed.

Lemma provision_admin_mon_preamble (members am mm : list (string * json))
    (mons servers : list json) (n afq : string) (ip : json) (w : world) :
  odict_get members "admin" = Some (JObj am) ->
  odict_get members "monitors" = Some (JArr (JObj mm :: mons)) ->
  odict_get members "servers" = Some (JArr servers) ->
  odict_get members "name" = Some (JStr n) ->
  odict_get am "public_ip" = Some ip ->
  odict_get am "fqdn" = Some (JStr afq) ->
  has_host_fields (JObj am) ->
  Forall has_host_fields (JObj mm :: mons) ->
  Forall has_host_fields servers ->
  (forall w', wait_for_ping env ip 60 10 w' = true) ->
  exists f,
    provision_admin_mon env (JObj members) w =
    (let cluster :=
       JObj (odict_set members "admin" (JObj (odict_set am "hostname" (JStr "cephadminmon")))) in
     let pubkey_dir := path_join (path_join conf_dir n) "pubkeys" in
     let pubkey_file := pubkeys_file env n afq in
     let* is_file := isfile pubkey_file in
     let* state :=
       (if is_file then
          let* text := read_file pubkey_file in
          let pubkey := strip_newlines text in
          let* cluster := admin_setitem cluster "pubkey" (JStr pubkey) in
          let* monitors := getitem cluster "monitors" in
          let* _ := py_first monitors in
          let mon := {| ref_list := "monitors"; ref_index := 0 |} in
          let* cluster := node_setitem cluster mon "pubkey" (JStr pubkey) in
          let* mon_fqdn := node_getitem cluster mon "fqdn" in
          let* mon_fqdn := as_str mon_fqdn in
          let mon_file := path_join pubkey_dir (mon_fqdn +:+ ".pub") in
          let* _ := open_w mon_file in
          let* _ := fwrite mon_file pubkey in
          let* _ := save_cluster cluster in
          ret (cluster, Some mon)
        else
          let* _ := print ("Error: public key " +:+ pubkey_file +:+ " not found") in
          ret (cluster, None)) in
     let cluster := fst state in
     let* admin_key := admin_getitem cluster "pubkey" in
     let* admin_key := as_str admin_key in
     let* name := getitem cluster "name" in
     let* _ := prov_exec_playbook env ip "ansible/add_authorized_keys.yaml"
                 [("keys", JStr (admin_key +:+ String ch_newline "")); ("cluster", name)] in
     match snd state with
     | None => raise Unmodelled
     | Some mon =>
         let* monitors := getitem cluster (ref_list mon) in
         let* mon := py_index monitors (ref_index mon) in
         let* name := getitem cluster "name" in
         let* _ := prov_exec_playbook env ip "ansible/create_cluster.yaml"
                     [("mon", mon); ("cluster_name", name)] in
         ret JNull
     end)
      {| fs := run_playbook env ip "ansible/ceph_admin_node.yaml"
                 [("local_pubkey_file", JStr (pubkeys_file env n afq))] f;
         trace := trace w ++
                  admin_preamble env (JObj members) (JObj am) ip (JObj mm :: mons) servers
                    n afq |} /\
    (forall p,
       files (fs w) !! p = None ->
       (forall targets playbook variables w',
          files (fs w') !! p = None ->
          files (run_playbook env targets playbook variables w') !! p = None) ->
       files (run_playbook env ip "ansible/ceph_admin_node.yaml"
                [("local_pubkey_file", JStr (pubkeys_file env n afq))] f) !! p = None).
Proof.
  intros Ha Hm Hs Hn Hip Hafq Hfa Hfm Hfs Hping.
  set (am1 := odict_set am "hostname" (JStr "cephadminmon")).
  set (members1 := odict_set members "admin" (JObj am1)).
  assert (Ha1 : odict_get members1 "admin" = Some (JObj am1)) by apply odict_get_set_eq.
  assert (Hm1 : odict_get members1 "monitors" = Some (JArr (JObj mm :: mons)))
    by (unfold members1; now rewrite odict_get_set_ne).
  assert (Hs1 : odict_get members1 "servers" = Some (JArr servers))
    by (unfold members1; now rewrite odict_get_set_ne).
  assert (Hn1 : odict_get members1 "name" = Some (JStr n))
    by (unfold members1; now rewrite odict_get_set_ne).
  assert (Hafq1 : odict_get am1 "fqdn" = Some (JStr afq))
    by (unfold am1; now rewrite odict_get_set_ne).
  unfold provision_admin_mon.
  go_with ltac:(eapply getitem_obj; exact Ha).
  go. go. go_with ltac:(eapply admin_getitem_ok; eassumption).
  go. rewrite Hping. cbn [negb].
  go. go_with ltac:(eapply admin_setitem_ok; eassumption).
  fold am1. fold members1.
  go_with ltac:(eapply admin_getitem_ok; [exact Ha1 | apply odict_get_set_eq]).
  go.
  go_with ltac:(eapply (update_storage_fqdn_entries_ok env members1 (JObj am1));
                [exact Ha1 | exact Hm1 | exact Hs1 | exact Hn1
                | apply has_host_fields_hostname; exact Hfa | exact Hfm | exact Hfs]).
  go_with ltac:(eapply getitem_obj; exact Hn1).
  go. rewrite ensure_dir_then. cbn [fs trace].
  go_with ltac:(eapply admin_getitem_ok; eassumption).
  go. go. eexists. split.
  - unfold admin_preamble, pubkeys_file.
    rewrite <- !app_assoc. cbn [app]. unfold am1. rewrite hosts_playbook_hostname.
    reflexivity.
  - intros p Hp Hpres. apply Hpres. cbn [fs with_dir files].
    apply Hpres. cbn [fs]. apply Hpres. exact Hp.
Qed.


(** X17. The key of the admin node is not fetched (its file is not
    there and no playbook makes it): [provision_admin_mon] prints the
    error that names the missing file and does not return.
    If the admin entry has no key yet it raises [KeyError] for [pubkey]
    at once; if it has one from before, that key is authorized and an
    exception follows.  Either way the create-cluster playbook never
    runs. *)
Theorem X17_admin_key_not_fetched (members am mm : list (string * json))
    (mons servers : list json) (n afq : string) (ip : json) (w : world) :
  odict_get members "admin" = Some (JObj am) ->
  odict_get members "monitors" = Some (JArr (JObj mm :: mons)) ->
  odict_get members "servers" = Some (JArr servers) ->
  odict_get members "name" = Some (JStr n) ->
  odict_get am "public_ip" = Some ip ->
  odict_get am "fqdn" = Some (JStr afq) ->
  has_host_fields (JObj am) ->
  Forall has_host_fields (JObj mm :: mons) ->
  Forall has_host_fields servers ->
  (forall w', wait_for_ping env ip 60 10 w' = true) ->
  files (fs w) !! pubkeys_file env n afq = None ->
  (forall targets playbook variables w',
     files (fs w') !! pubkeys_file env n afq = None ->
     files (run_playbook env targets playbook variables w') !! pubkeys_file env n afq = None) ->
  let said_so_far :=
    admin_preamble env (JObj members) (JObj am) ip (JObj mm :: mons) servers n afq ++
    [EPrint ("Error: public key " +:+ pubkeys_file env n afq +:+ " not found")] in
  (odict_get am "pubkey" = None ->
   exists w',
     provision_admin_mon env (JObj members) w = (Raise (KeyError "pubkey"), w') /\
     trace w' = trace w ++ said_so_far) /\
  (forall old, odict_get am "pubkey" = Some (JStr old) ->
   exists e w',
     provision_admin_mon env (JObj members) w = (Raise e, w') /\
     trace w' = trace w ++ said_so_far ++ [authorize_admin ip old (JStr n)]).
Proof.
  intros Ha Hm Hs Hn Hip Hafq Hfa Hfm Hfs Hping Hno Hnever said_so_far.
  destruct (provision_admin_mon_preamble members am mm mons servers n afq ip w)
    as (f0 & -> & Habsent); try assumption.
  pose proof (Habsent _ Hno Hnever) as Hkey. clear Habsent.
  cbv zeta.
  set (am1 := odict_set am "hostname" (JStr "cephadminmon")).
  set (members1 := odict_set members "admin" (JObj am1)).
  assert (Ha1 : odict_get members1 "admin" = Some (JObj am1)) by apply odict_get_set_eq.
  assert (Hn1 : odict_get members1 "name" = Some (JStr n))
    by (unfold members1; now rewrite odict_get_set_ne).
  go_with ltac:(apply isfile_eq). rewrite Hkey.
  rewrite bool_decide_eq_false_2 by (intros [? ?]; discriminate).
  go_with ltac:(go; reflexivity).
  cbn [fst snd]. split.
  - intros Hnone.
    erewrite bind_raise
      by (eapply admin_getitem_missing; [exact Ha1|];
          unfold am1; now rewrite odict_get_set_ne).
    eexists. split; [reflexivity|]. cbn [trace]. unfold said_so_far.
    now rewrite <- !app_assoc.
  - intros old Hold.
    go_with ltac:(eapply admin_getitem_ok; [exact Ha1|];
                  unfold am1; rewrite odict_get_set_ne by discriminate; exact Hold).
    go. go_with ltac:(eapply getitem_obj; exact Hn1).
    go. eexists _, _. split; [reflexivity|]. cbn [trace]. unfold said_so_far.
    now rewrite <- !app_assoc.
Qed.

(** X18. The script as it stands, run where no cluster named
    [cephperfcluster] is stored: [load_cluster] gives [None], on which
    [update_storage_fqdn_entries] raises [TypeError]; nothing is said or
    done. *)
Theorem X18_script_without_store (w : world) :
  files (fs w) !! cluster_file_of "cephperfcluster" = None ->
  main env w = (Raise TypeError, w).
Proof.
  intros Hnone. unfold main.
  erewrite bind_ret by (rewrite load_cluster_eq, Hnone; reflexivity).
  reflexivity.
Qed.

(** X19. The script run where a record is stored under [cephperfcluster]
    whose admin node, monitors and servers have their host fields: the
    hosts playbook runs once, with the table of that record, and nothing
    else happens. *)
Theorem X19_script_pushes_hosts (members : list (string * json)) (admin name : json)
    (monitors servers : list json) (w : world) :
  fst (load_cluster "cephperfcluster" w) = Ret (JObj members) ->
  odict_get members "admin" = Some admin ->
  odict_get members "monitors" = Some (JArr monitors) ->
  odict_get members "servers" = Some (JArr servers) ->
  odict_get members "name" = Some name ->
  has_host_fields admin ->
  Forall has_host_fields monitors ->
  Forall has_host_fields servers ->
  main env w =
  (Ret JNull,
   {| fs := run_playbook env (JArr (hosts_targets admin monitors servers))
              "ansible/modify_hosts_file.yaml"
              [("host_entries", JArr (hosts_table admin monitors servers)); ("cluster", name)] w;
      trace := trace w ++ [hosts_playbook admin monitors servers name] |}).
Proof.
  intros Hload Ha Hm Hs Hn Hfa Hfm Hfs. unfold main.
  erewrite bind_ret by (apply load_cluster_fst; exact Hload).
  now apply update_storage_fqdn_entries_ok.
Qed.

End AdminNode.

Lemma X15_unreachable_admin_witness :
  provision_admin_mon no_machine (JObj admin_only_members) empty_world =
  (Ret JNull,
   said empty_world
     [EPrintValue (JObj admin_only_members); EPrintValue (JObj admin_L1);
      EWaitForPing (JStr "1.2.3.4") 60 10;
      EPrint "Unable to reach 1.2.3.4 over SSH"]).
Proof.
  exact (X15_unreachable_admin no_machine admin_only_members admin_L1 "1.2.3.4" empty_world
           eq_refl eq_refl eq_refl).
Defined.


Lemma X17_admin_key_not_fetched_witness :
  exists w',
    provision_admin_mon delivers_L1 (JObj admin_only_members) empty_world =
    (Raise (KeyError "pubkey"), w').
Proof.
  destruct (X17_admin_key_not_fetched delivers_L1 admin_only_members admin_L1 monitor_L1
              [] [] "t1" "cephadmin.t1" (JStr "1.2.3.4") empty_world)
    as [Hnone _]; try reflexivity.
  - apply (has_host_fields_named_node machine_L1 "1.2.3.4" "cephadmin.t1" "cephadmin").
  - constructor; [|constructor].
    apply (has_host_fields_named_node machine_L1 "1.2.3.4" "cephmon1.t1" "cephmon1").
  - constructor.
  - intros targets playbook variables w' H. exact H.
  - destruct (Hnone eq_refl) as (w' & Hrun & _). exists w'. exact Hrun.
Defined.

Lemma X18_script_without_store_witness :
  main mock empty_world = (Raise TypeError, empty_world).
Proof. exact (X18_script_without_store mock empty_world eq_refl). Defined.

Lemma X19_script_pushes_hosts_witness :
  exists w cluster e,
    save_cluster cluster empty_world = (Ret tt, w) /\
    main mock w = (Ret JNull, said w [e]).
Proof.
  pose (members := [("name", JStr "cephperfcluster"); ("dc", JInt 6);
                    ("admin", admin_node machine_L1 "1.2.3.4" "cephperfcluster");
                    ("monitors", JArr [monitor_node machine_L1 "1.2.3.4" "cephperfcluster"]);
                    ("servers", JArr []); ("clients", JArr [])]).
  exists (snd (save_cluster (JObj members) empty_world)), (JObj members),
    (hosts_playbook (admin_node machine_L1 "1.2.3.4" "cephperfcluster")
       [monitor_node machine_L1 "1.2.3.4" "cephperfcluster"] [] (JStr "cephperfcluster")).
  split; [vm_compute; reflexivity|].
  rewrite (X19_script_pushes_hosts mock members
             (admin_node machine_L1 "1.2.3.4" "cephperfcluster") (JStr "cephperfcluster")
             [monitor_node machine_L1 "1.2.3.4" "cephperfcluster"] []
             (snd (save_cluster (JObj members) empty_world))).
  - reflexivity.
  - vm_compute. reflexivity.
  - reflexivity.
  - reflexivity.
  - reflexivity.
  - reflexivity.
  - apply has_host_fields_named_node.
  - constructor; [apply has_host_fields_named_node | constructor].
  - constructor.
Defined.
